(** * video_tool.py: parameter resolution and menu flows

    A shallow embedding of [video_tool.py]: the interactive menu that resizes,
    splits and crops video files by driving an external video engine.

    - Python [str] values are [string]s; the character-level functions
      ([lower], [strip], [int]) are the ASCII fragments of the Python ones.
    - Python [float] is IEEE 754 binary64, taken from the Standard Library's
      executable specification [SpecFloat] with [prec = 53], [emax = 1024].
    - Console, directory, probe and engine interactions are threaded through
      an explicit [World]; Python exceptions are an error monad over it. *)

From Stdlib Require Import ZArith List Bool Lia String Ascii.
From Stdlib Require Import DecimalString DecimalZ QArith Qround SpecFloat.
Import ListNotations.

Local Open Scope string_scope.
Local Open Scope Z_scope.

(** ** Exceptions and results *)

(** The exception classes the program can meet.  [EngineError] is
    [ffmpeg.Error]; [OtherError] is any other [Exception]. *)
Inductive exn : Type :=
| ValueError
| ZeroDivisionError
| OverflowError
| IndexError
| EOFError
| KeyboardInterrupt
| EngineError
| OtherError.

Inductive result (A : Type) : Type :=
| Ok (a : A)
| Raise (e : exn).
Arguments Ok {A} a.
Arguments Raise {A} e.

Definition rbind {A B} (r : result A) (k : A -> result B) : result B :=
  match r with
  | Ok a => k a
  | Raise e => Raise e
  end.

(** ** Python strings *)

Module PyStr.

Definition is_upper (c : ascii) : bool :=
  let n := nat_of_ascii c in (65 <=? n)%nat && (n <=? 90)%nat.

Definition lower_ascii (c : ascii) : ascii :=
  if is_upper c then ascii_of_nat (nat_of_ascii c + 32) else c.

(** [str.lower()] on ASCII text. *)
Fixpoint lower (s : string) : string :=
  match s with
  | EmptyString => EmptyString
  | String c s' => String (lower_ascii c) (lower s')
  end.

(** [s.endswith(suffix)]: some tail of [s] is [suffix]. *)
Fixpoint endswith (s suffix : string) : bool :=
  String.eqb s suffix
  || match s with
     | EmptyString => false
     | String _ s' => endswith s' suffix
     end.

(** Whitespace as [str.isspace] sees it on ASCII characters. *)
Definition is_space (c : ascii) : bool :=
  let n := nat_of_ascii c in
  ((9 <=? n)%nat && (n <=? 13)%nat) || ((28 <=? n)%nat && (n <=? 32)%nat).

Fixpoint lstrip (s : string) : string :=
  match s with
  | EmptyString => EmptyString
  | String c s' => if is_space c then lstrip s' else s
  end.

Fixpoint rstrip (s : string) : string :=
  match s with
  | EmptyString => EmptyString
  | String c s' =>
      match rstrip s' with
      | EmptyString => if is_space c then EmptyString else String c EmptyString
      | r => String c r
      end
  end.

(** [str.strip()] *)
Definition strip (s : string) : string := rstrip (lstrip s).

(** [s.replace(a, b)] for one-character [a] and [b]. *)
Fixpoint replace_char (a b : ascii) (s : string) : string :=
  match s with
  | EmptyString => EmptyString
  | String c s' => String (if Ascii.eqb c a then b else c) (replace_char a b s')
  end.

(** [s.split(sep)] for a one-character separator. *)
Fixpoint split_char (sep : ascii) (s : string) : list string :=
  match s with
  | EmptyString => [EmptyString]
  | String c s' =>
      if Ascii.eqb c sep then EmptyString :: split_char sep s'
      else match split_char sep s' with
           | [] => [String c EmptyString]
           | hd :: tl => String c hd :: tl
           end
  end.

(** [str(n)] for an [int]. *)
Definition str_of_int (z : Z) : string := NilZero.string_of_int (Z.to_int z).

Definition is_digit (c : ascii) : bool :=
  let n := nat_of_ascii c in (48 <=? n)%nat && (n <=? 57)%nat.

(** Digit groups joined by single underscores, as the [int] literal
    grammar allows: the underscores are dropped, anything else fails. *)
Fixpoint drop_underscores (prev_digit : bool) (s : string) : option string :=
  match s with
  | EmptyString => if prev_digit then Some EmptyString else None
  | String c s' =>
      if is_digit c then
        option_map (String c) (drop_underscores true s')
      else if Ascii.eqb c "_"%char then
        if prev_digit then drop_underscores false s' else None
      else None
  end.

(** [int(s)] on ASCII text: surrounding whitespace, an optional sign and
    decimal digits; [None] stands for [ValueError]. *)
Definition int_of_str (s : string) : option Z :=
  match strip s with
  | EmptyString => None
  | String c rest =>
      if Ascii.eqb c "-"%char then
        match drop_underscores false rest with
        | Some ds => option_map (fun d => - Z.of_int d) (NilZero.int_of_string ds)
        | None => None
        end
      else
        let body := if Ascii.eqb c "+"%char then rest else String c rest in
        match drop_underscores false body with
        | Some ds => option_map Z.of_int (NilZero.int_of_string ds)
        | None => None
        end
  end.

(** Index of the last occurrence of [c] in [s] ([str.rfind]), if any. *)
Fixpoint rfind (c : ascii) (s : string) : option nat :=
  match s with
  | EmptyString => None
  | String d s' =>
      match rfind c s' with
      | Some i => Some (S i)
      | None => if Ascii.eqb d c then Some 0%nat else None
      end
  end.

(** Is some character of [s] strictly before index [n] different from [c]? *)
Fixpoint other_before (c : ascii) (n : nat) (s : string) : bool :=
  match n, s with
  | S n', String d s' => negb (Ascii.eqb d c) || other_before c n' s'
  | _, _ => false
  end.

(** [os.path.splitext] of [posixpath]: the extension starts at the last
    dot of the last path component, leading dots of the component apart. *)
Definition splitext (p : string) : string * string :=
  let sepIndex := rfind "/"%char p in
  match rfind "."%char p with
  | None => (p, EmptyString)
  | Some dotIndex =>
      let filenameIndex :=
        match sepIndex with Some i => S i | None => 0%nat end in
      if (filenameIndex <=? dotIndex)%nat
         && other_before "."%char (dotIndex - filenameIndex)
              (substring filenameIndex (String.length p - filenameIndex) p)
      then (substring 0 dotIndex p,
            substring dotIndex (String.length p - dotIndex) p)
      else (p, EmptyString)
  end.

End PyStr.

(** ** Python floats: IEEE 754 binary64 *)

Module Binary64.

Definition prec : Z := 53.
Definition emax : Z := 1024.
Definition float : Type := spec_float.

(** [float(n)] for an [int]; exact when [|n| <= 2^53]. *)
Definition of_int (z : Z) : float := binary_normalize prec emax z 0 false.

Definition div : float -> float -> float := SFdiv prec emax.
Definition mul : float -> float -> float := SFmul prec emax.
Definition add : float -> float -> float := SFadd prec emax.
Definition ltb : float -> float -> bool := SFltb.

Definition zero : float := S754_zero false.

Definition is_zero (x : float) : bool :=
  match x with
  | S754_zero _ => true
  | _ => false
  end.

Definition sign_of (x : float) : bool :=
  match x with
  | S754_zero s | S754_infinity s | S754_finite s _ _ => s
  | S754_nan => false
  end.

(** Integer part of a finite float, towards zero. *)
Definition truncate (s : bool) (m : positive) (e : Z) : Z :=
  let a := match e with
           | Z0 => Zpos m
           | Zpos _ => Zpos m * 2 ^ e
           | Zneg p => Zpos m / 2 ^ Zpos p
           end in
  if s then - a else a.

(** [int(x)] for a float. *)
Definition to_int (x : float) : result Z :=
  match x with
  | S754_zero _ => Ok 0
  | S754_finite s m e => Ok (truncate s m e)
  | S754_infinity _ => Raise OverflowError
  | S754_nan => Raise ValueError
  end.

(** C's [fmod]: the exact remainder of the truncated quotient, with the
    sign of the dividend. *)
Definition fmod (x y : float) : float :=
  match x, y with
  | S754_nan, _ | _, S754_nan => S754_nan
  | S754_infinity _, _ => S754_nan
  | _, S754_zero _ => S754_nan
  | S754_zero s, _ => S754_zero s
  | S754_finite _ _ _, S754_infinity _ => x
  | S754_finite sx mx ex, S754_finite _ my ey =>
      let e := Z.min ex ey in
      let r := (Zpos mx * 2 ^ (ex - e)) mod (Zpos my * 2 ^ (ey - e)) in
      if r =? 0 then S754_zero sx
      else binary_normalize prec emax (if sx then - r else r) e sx
  end.

(** [x / y] on floats. *)
Definition truediv (x y : float) : result float :=
  if is_zero y then Raise ZeroDivisionError else Ok (div x y).

(** [a / b] on ints whose magnitude is at most [2^53], where both
    operands convert exactly and the quotient is rounded once. *)
Definition int_truediv (a b : Z) : result float :=
  if b =? 0 then Raise ZeroDivisionError else Ok (div (of_int a) (of_int b)).

(** [x % y] on floats ([float_rem]): the remainder takes the sign of the
    divisor. *)
Definition py_mod (x y : float) : result float :=
  if is_zero y then Raise ZeroDivisionError
  else
    let m := fmod x y in
    if is_zero m then Ok (S754_zero (sign_of y))
    else if Bool.eqb (ltb y zero) (ltb m zero) then Ok m
         else Ok (add m y).

(** [min(a, b)]: the second argument wins only when strictly smaller. *)
Definition py_min (a b : float) : float := if ltb b a then b else a.

End Binary64.

Import Binary64.

(** A Python number that is either an [int] or a [float]. *)
Inductive number : Type :=
| PyInt (z : Z)
| PyFloat (x : float).

Definition to_float (n : number) : float :=
  match n with
  | PyInt z => of_int z
  | PyFloat x => x
  end.

(** ** Data model *)

(** What [get_video_info] extracts from a probe. *)
Record VideoInfo : Type := mkInfo {
  info_width : Z;
  info_height : Z;
  info_duration : float
}.

(** The filter handed to the engine: [scale] with a [WxH] string, or [crop]
    with width, height and the two offset expressions. *)
Inductive filter_spec : Type :=
| Scale (resolution : string)
| Crop (w h : Z) (x y : string).

(** ** File discovery: the extension test of [list_video_files] *)

Definition video_extensions : list string :=
  [".mp4"; ".avi"; ".mov"; ".wmv"; ".mkv"; ".flv"; ".m4v"].

Definition is_video_file (file : string) : bool :=
  existsb (fun ext => PyStr.endswith (PyStr.lower file) ext) video_extensions.

(** ** Parameter resolution *)

Definition resize_options : list (string * (string * string)) :=
  [("1", ("1920x1080", "Full HD"));
   ("2", ("1280x720", "HD"));
   ("3", ("854x480", "SD"));
   ("4", ("640x360", "Low"));
   ("5", ("custom", "Custom Size"))].

Definition duration_map : list (string * Z) :=
  [("1", 10); ("2", 30); ("3", 60); ("4", 120)].

Definition crop_options : list (string * (string * string)) :=
  [("1", ("1080:1920", "TikTok/Instagram Stories (9:16)"));
   ("2", ("1080:1080", "Instagram Post (1:1)"));
   ("3", ("1200:630", "Facebook Post (1.91:1)"));
   ("4", ("1080:608", "YouTube Thumbnail (16:9)"));
   ("5", ("1080:1350", "Instagram Feed (4:5)"));
   ("6", ("custom", "Custom Crop"))].

(** [d[key]] / [key in d] for the option tables. *)
Fixpoint lookup {V : Type} (key : string) (d : list (string * V)) : option V :=
  match d with
  | [] => None
  | (k, v) :: d' => if String.eqb k key then Some v else lookup key d'
  end.

(** [int(s)] as a fallible computation. *)
Definition py_int (s : string) : result Z :=
  match PyStr.int_of_str s with
  | Some z => Ok z
  | None => Raise ValueError
  end.

(** [width, height = ratio.split(':')] followed by the two [int]
    conversions; unpacking anything but two parts is a [ValueError]. *)
Definition parse_ratio (ratio : string) : result (Z * Z) :=
  match PyStr.split_char ":"%char ratio with
  | [w; h] =>
      rbind (py_int w) (fun w' => rbind (py_int h) (fun h' => Ok (w', h')))
  | _ => Raise ValueError
  end.

(** Lines 406-413 of [crop_video]: a preset larger than the input is scaled
    down by the smaller of the two fit ratios. *)
Definition scale_to_fit (width height input_width input_height : Z)
  : result (bool * (Z * Z)) :=
  if (width >? input_width) || (height >? input_height) then
    rbind (int_truediv input_width width) (fun scale_w =>
    rbind (int_truediv input_height height) (fun scale_h =>
    let scale := py_min scale_w scale_h in
    rbind (to_int (mul (of_int width) scale)) (fun width' =>
    rbind (to_int (mul (of_int height) scale)) (fun height' =>
    Ok (true, (width', height'))))))
  else Ok (false, (width, height)).

(** Line 301 of [split_video]. *)
Definition expected_segments (total : float) (segment_duration : number)
  : result Z :=
  rbind (truediv total (to_float segment_duration)) (fun q =>
  rbind (to_int q) (fun n =>
  rbind (py_mod total (to_float segment_duration)) (fun m =>
  Ok (n + (if ltb zero m then 1 else 0))))).

(** The [crop] filter of line 455; the offsets are expressions over the
    engine's [iw] and [ih]. *)
Definition crop_filter (width height : Z) : filter_spec :=
  Crop width height
       ("(iw-" ++ PyStr.str_of_int width ++ ")/2")
       ("(ih-" ++ PyStr.str_of_int height ++ ")/2").

(** The file-name slug of lines 424-435. *)
Definition clean_platform (crop_choice : string) : string :=
  if String.eqb crop_choice "1" then "tiktok_stories_9x16"
  else if String.eqb crop_choice "2" then "instagram_post_1x1"
  else if String.eqb crop_choice "3" then "facebook_post_1_91x1"
  else if String.eqb crop_choice "4" then "youtube_thumbnail_16x9"
  else if String.eqb crop_choice "5" then "instagram_feed_4x5"
  else "custom".

(** ** The world the program runs in *)

(** What arrives at a prompt: a line of text, or the interrupt signal. *)
Inductive key : Type :=
| Line (s : string)
| CtrlC.

(** Operations on the file system and on the external engine, in the
    order the program performs them. *)
Inductive io_op : Type :=
| IoListdir (dir : string)
| IoGetsize (file : string)
| IoProbe (file : string)
| IoExists (path : string)
| IoMakedirs (path : string)
| IoTransform (input : string) (f : filter_spec) (output : string)
| IoSegment (input output_prefix : string) (segment_duration : number).

(** Console output, one constructor per [console.print] (or prompt) site. *)
Inductive message : Type :=
| MsgBanner
| MsgMenu
| MsgHeader (title : string)
| MsgPrompt (text : string)
| MsgInvalidInteger          (* rich: not an integer *)
| MsgIllegalChoice           (* rich: not one of the choices *)
| MsgAvailableFiles
| MsgFilesPanel (rows : list (Z * string * Z))
| MsgNoVideoFiles
| MsgProbeError
| MsgSelected (file : string)
| MsgResolution (w h : Z)
| MsgOptionsPanel (title : string)
| MsgInvalidOption
| MsgInvalidSelection
| MsgValidNumber             (* Please enter a valid number! *)
| MsgCancelled
| MsgTarget (text : string)
| MsgOutput (path : string)
| MsgSuccess (what : string)
| MsgNewFile (path : string) (size : Z) (w h : Z)
| MsgEngineError (what : string)
| MsgDuration (d : float)
| MsgSplitting (segments : Z) (segment_duration : number)
| MsgScaledDown (w h : Z)
| MsgGoodbye
| MsgClear
| MsgUnexpected.

Record World : Type := mkWorld {
  stdin : list key;            (* what the user will type *)
  console : list message;      (* what has been printed, oldest first *)
  io : list io_op;             (* what has been done, oldest first *)
  paths : list string          (* paths known to exist under the cwd *)
}.

(** The environment: what the directory, the probe and the engine answer.
    The first argument is the number of operations performed so far, so
    that the same question may get different answers over time.
    [py_float] is Python's [float(str)]. *)
Record Env : Type := mkEnv {
  env_listdir : nat -> list string;
  env_getsize : nat -> string -> Z;
  env_probe : nat -> string -> option VideoInfo;
  env_transform : nat -> string -> filter_spec -> string -> bool;
  env_segment : nat -> string -> string -> number -> bool;
  py_float : string -> option float
}.

Definition now (w : World) : nat := List.length (io w).

Definition set_stdin (k : list key) (w : World) : World :=
  mkWorld k (console w) (io w) (paths w).
Definition add_console (ms : list message) (w : World) : World :=
  mkWorld (stdin w) (console w ++ ms)%list (io w) (paths w).
Definition add_io (op : io_op) (w : World) : World :=
  mkWorld (stdin w) (console w) (io w ++ [op])%list (paths w).
Definition add_path (p : string) (w : World) : World :=
  mkWorld (stdin w) (console w) (io w) (p :: paths w).

(** ** The monad of effects and exceptions *)

Definition M (A : Type) : Type := World -> result A * World.

Definition ret {A} (a : A) : M A := fun w => (Ok a, w).

Definition raise {A} (e : exn) : M A := fun w => (Raise e, w).

Definition bind {A B} (m : M A) (k : A -> M B) : M B :=
  fun w =>
    match m w with
    | (Ok a, w') => k a w'
    | (Raise e, w') => (Raise e, w')
    end.

Notation "x <- m ;; k" := (bind m (fun x => k))
  (at level 61, m at next level, right associativity).
Notation "m ;;; k" := (bind m (fun _ => k))
  (at level 61, right associativity).

(** [try: m except ...: handler e]; an exception the handler does not
    list propagates. *)
Definition try_except {A} (m : M A) (handler : exn -> option (M A)) : M A :=
  fun w =>
    match m w with
    | (Ok a, w') => (Ok a, w')
    | (Raise e, w') =>
        match handler e with
        | Some k => k w'
        | None => (Raise e, w')
        end
    end.

Definition lift {A} (r : result A) : M A := fun w => (r, w).

Definition print (m : message) : M unit := fun w => (Ok tt, add_console [m] w).

(** ** The prompts of the terminal library *)

(** One round of a validated prompt: the prompt is shown, a line is read
    and validated; an invalid line shows the error and asks again. *)
Fixpoint ask_loop {A} (text : string) (validate : string -> A + message)
         (keys : list key) (out : list message)
  : result A * list key * list message :=
  match keys with
  | [] => (Raise EOFError, [], out ++ [MsgPrompt text])%list
  | CtrlC :: rest => (Raise KeyboardInterrupt, rest, out ++ [MsgPrompt text])%list
  | Line s :: rest =>
      match validate s with
      | inl a => (Ok a, rest, out ++ [MsgPrompt text])%list
      | inr err => ask_loop text validate rest (out ++ [MsgPrompt text; err])%list
      end
  end.

Definition ask {A} (text : string) (validate : string -> A + message) : M A :=
  fun w =>
    let '(r, keys, out) := ask_loop text validate (stdin w) (console w) in
    (r, mkWorld keys out (io w) (paths w)).

Definition mem (s : string) (l : list string) : bool := existsb (String.eqb s) l.

(** [Prompt.ask(text)]: the stripped line, whatever it is. *)
Definition prompt_ask (text : string) : M string :=
  ask text (fun s => inl (PyStr.strip s)).

(** [Prompt.ask(text, default=d)]: an empty line gives the default. *)
Definition prompt_ask_default (text d : string) : M string :=
  ask text (fun s => match s with
                     | EmptyString => inl d
                     | _ => inl (PyStr.strip s)
                     end).

(** [Prompt.ask(text, choices=cs)] *)
Definition prompt_choices (text : string) (choices : list string) : M string :=
  ask text (fun s => let v := PyStr.strip s in
                     if mem v choices then inl v else inr MsgIllegalChoice).

(** [Prompt.ask(text, choices=cs, default=d)] *)
Definition prompt_choices_default (text : string) (choices : list string)
           (d : string) : M string :=
  ask text (fun s => match s with
                     | EmptyString => inl d
                     | _ => let v := PyStr.strip s in
                            if mem v choices then inl v else inr MsgIllegalChoice
                     end).

(** [IntPrompt.ask(text, choices=cs)] *)
Definition int_prompt_choices (text : string) (choices : list string) : M Z :=
  ask text (fun s => let v := PyStr.strip s in
                     match PyStr.int_of_str v with
                     | None => inr MsgInvalidInteger
                     | Some z => if mem v choices then inl z else inr MsgIllegalChoice
                     end).

(** [[str(i) for i in range(1, n+1)]] *)
Definition choices_upto (n : nat) : list string :=
  map (fun i => PyStr.str_of_int (Z.of_nat i)) (seq 1 n).

(** [l[i]] with Python's negative indices. *)
Definition py_index {A} (l : list A) (i : Z) : result A :=
  let j := if i <? 0 then i + Z.of_nat (List.length l) else i in
  if j <? 0 then Raise IndexError
  else match nth_error l (Z.to_nat j) with
       | Some a => Ok a
       | None => Raise IndexError
       end.

(** ** The flows of [video_tool.py] *)

Section Flows.

Variable E : Env.

Definition os_listdir (dir : string) : M (list string) :=
  fun w => (Ok (env_listdir E (now w)), add_io (IoListdir dir) w).

Definition os_path_getsize (file : string) : M Z :=
  fun w => (Ok (env_getsize E (now w) file), add_io (IoGetsize file) w).

Definition os_path_exists (path : string) : M bool :=
  fun w => (Ok (mem path (paths w)), add_io (IoExists path) w).

Definition os_makedirs (path : string) : M unit :=
  fun w => (Ok tt, add_path path (add_io (IoMakedirs path) w)).

Definition ffmpeg_probe (file : string) : M (option VideoInfo) :=
  fun w => (Ok (env_probe E (now w) file), add_io (IoProbe file) w).

(** [ffmpeg.input(i).filter(...).output(o, ...).overwrite_output().run()] *)
Definition ffmpeg_run (input : string) (f : filter_spec) (output : string) : M unit :=
  fun w =>
    (if env_transform E (now w) input f output then Ok tt else Raise EngineError,
     add_io (IoTransform input f output) w).

(** Modelled from the spec: [split_video_ffmpeg_python] lives in
    [split_video.py], which is not among the sources.  It is the segment
    operation of the engine adapter, [segment(path, outputPrefix,
    segmentDurationSeconds) -> success|error]: the call is recorded and
    its outcome is the environment's. *)
Definition split_video_ffmpeg_python (input output_prefix : string)
           (segment_duration : number) : M unit :=
  fun w =>
    (if env_segment E (now w) input output_prefix segment_duration
     then Ok tt else Raise OtherError,
     add_io (IoSegment input output_prefix segment_duration) w).

(** [float(s)] *)
Definition float_of_str (s : string) : result float :=
  match py_float E s with
  | Some x => Ok x
  | None => Raise ValueError
  end.

(** The size column of the listing: one [getsize] per row. *)
Fixpoint file_rows (i : Z) (files : list string) : M (list (Z * string * Z)) :=
  match files with
  | [] => ret []
  | file :: rest =>
      size <- os_path_getsize file ;;
      rows <- file_rows (i + 1) rest ;;
      ret ((i, file, size) :: rows)
  end.

Definition list_video_files : M (list string) :=
  files <- os_listdir "." ;;
  let video_files := List.filter is_video_file files in
  match video_files with
  | [] => print MsgNoVideoFiles ;;; ret []
  | _ :: _ =>
      print MsgAvailableFiles ;;;
      rows <- file_rows 1 video_files ;;
      print (MsgFilesPanel rows) ;;;
      ret video_files
  end.

Definition get_video_info (file_path : string) : M (option VideoInfo) :=
  probe <- ffmpeg_probe file_path ;;
  match probe with
  | Some info => ret (Some info)
  | None => print MsgProbeError ;;; ret None
  end.

(** The [except ValueError] / [except KeyboardInterrupt] pair that ends
    each flow. *)
Definition flow_handler (e : exn) : option (M unit) :=
  match e with
  | ValueError => Some (print MsgValidNumber)
  | KeyboardInterrupt => Some (print MsgCancelled)
  | _ => None
  end.

(** Lines 217-221 and 463-467: the report on the new file. *)
Definition show_new_file (output_file : string) : M unit :=
  new_info <- get_video_info output_file ;;
  match new_info with
  | Some ni =>
      new_size <- os_path_getsize output_file ;;
      print (MsgNewFile output_file new_size (info_width ni) (info_height ni))
  | None => ret tt
  end.

(** *** resize_video *)

(** Lines 180-224, from the chosen option on. *)
Definition resize_with (input_file resize_choice : string) : M unit :=
  target <-
    (if String.eqb resize_choice "5" then
       width <- prompt_ask "Enter width" ;;
       height <- prompt_ask "Enter height" ;;
       ret (Some (width ++ "x" ++ height))
     else
       match lookup resize_choice resize_options with
       | Some (resolution, _) => ret (Some resolution)
       | None => print MsgInvalidOption ;;; ret None
       end) ;;
  match target with
  | None => ret tt
  | Some target_resolution =>
      let '(name, ext) := PyStr.splitext input_file in
      let output_file :=
        name ++ "_resized_"
             ++ PyStr.replace_char "x"%char "_"%char target_resolution ++ ext in
      print (MsgTarget target_resolution) ;;;
      print (MsgOutput output_file) ;;;
      try_except
        (ffmpeg_run input_file (Scale target_resolution) output_file ;;;
         print (MsgSuccess "resized") ;;;
         show_new_file output_file)
        (fun e => match e with
                  | EngineError => Some (print (MsgEngineError "resizing"))
                  | _ => None
                  end)
  end.

(** Lines 139-224: the body of the outer [try]. *)
Definition resize_body (video_files : list string) : M unit :=
  n <- int_prompt_choices "Select video file"
                          (choices_upto (List.length video_files)) ;;
  let choice := n - 1 in
  input_file <- lift (py_index video_files choice) ;;
  print (MsgSelected input_file) ;;;
  info <- get_video_info input_file ;;
  match info with
  | None => ret tt
  | Some info =>
      print (MsgResolution (info_width info) (info_height info)) ;;;
      print (MsgOptionsPanel "Resize Options") ;;;
      resize_choice <- prompt_choices "Select resize option"
                                      ["1"; "2"; "3"; "4"; "5"] ;;
      resize_with input_file resize_choice
  end.

Definition resize_video : M unit :=
  print (MsgHeader "VIDEO RESIZE MODE") ;;;
  video_files <- list_video_files ;;
  match video_files with
  | [] => ret tt
  | _ :: _ => try_except (resize_body video_files) flow_handler
  end.

(** *** split_video *)

(** Lines 282-290: the segment duration for the chosen option. *)
Definition split_segment_duration (duration_choice : string) : M (option number) :=
  match lookup duration_choice duration_map with
  | Some d => ret (Some (PyInt d))
  | None =>
      if String.eqb duration_choice "5" then
        s <- prompt_ask "Enter duration in seconds" ;;
        x <- lift (float_of_str s) ;;
        ret (Some (PyFloat x))
      else print MsgInvalidOption ;;; ret None
  end.

(** Lines 292-322: the directory, the expected count and the engine call. *)
Definition split_run (info : VideoInfo) (input_file : string)
           (segment_duration : number) : M unit :=
  let segments_dir := "segments" in
  present <- os_path_exists segments_dir ;;
  (if present then ret tt else os_makedirs segments_dir) ;;;
  let name := fst (PyStr.splitext input_file) in
  let output_prefix := segments_dir ++ "/" ++ name ++ "_segment" in
  expected <- lift (expected_segments (info_duration info) segment_duration) ;;
  print (MsgSplitting expected segment_duration) ;;;
  print (MsgOutput segments_dir) ;;;
  try_except
    (split_video_ffmpeg_python input_file output_prefix segment_duration ;;;
     print (MsgSuccess "split"))
    (fun e => match e with
              | KeyboardInterrupt => None
              | _ => Some (print (MsgEngineError "splitting"))
              end).

(** Lines 282-322, from the chosen option on. *)
Definition split_with (info : VideoInfo) (input_file duration_choice : string)
  : M unit :=
  seg <- split_segment_duration duration_choice ;;
  match seg with
  | None => ret tt
  | Some segment_duration => split_run info input_file segment_duration
  end.

(** Lines 247-322: the body of the outer [try]. *)
Definition split_body (video_files : list string) : M unit :=
  n <- int_prompt_choices "Select video file"
                          (choices_upto (List.length video_files)) ;;
  let choice := n - 1 in
  input_file <- lift (py_index video_files choice) ;;
  print (MsgSelected input_file) ;;;
  info <- get_video_info input_file ;;
  match info with
  | None => ret tt
  | Some info =>
      print (MsgDuration (info_duration info)) ;;;
      print (MsgOptionsPanel "Split Options") ;;;
      duration_choice <- prompt_choices "Select split option"
                                        ["1"; "2"; "3"; "4"; "5"] ;;
      split_with info input_file duration_choice
  end.

Definition split_video : M unit :=
  print (MsgHeader "VIDEO SPLIT MODE") ;;;
  video_files <- list_video_files ;;
  match video_files with
  | [] => ret tt
  | _ :: _ => try_except (split_body video_files) flow_handler
  end.

(** *** crop_video *)

(** Lines 390-418: the crop box for the chosen option.  A preset is
    checked against a second probe of the input. *)
Definition crop_dimensions (input_file crop_choice : string)
  : M (option (Z * Z * string)) :=
  if String.eqb crop_choice "6" then
    sw <- prompt_ask "Enter crop width" ;;
    width <- lift (py_int sw) ;;
    sh <- prompt_ask "Enter crop height" ;;
    height <- lift (py_int sh) ;;
    ret (Some (width, height, "Custom"))
  else
    match lookup crop_choice crop_options with
    | Some (ratio, platform_name) =>
        wh <- lift (parse_ratio ratio) ;;
        let '(width, height) := wh in
        video_info <- get_video_info input_file ;;
        match video_info with
        | Some vi =>
            r <- lift (scale_to_fit width height
                                    (info_width vi) (info_height vi)) ;;
            let '(scaled, (width', height')) := r in
            (if scaled then print (MsgScaledDown width' height') else ret tt) ;;;
            ret (Some (width', height', platform_name))
        | None => ret (Some (width, height, platform_name))
        end
    | None => print MsgInvalidOption ;;; ret None
    end.

(** Lines 420-470: output name and the engine call. *)
Definition crop_run (input_file crop_choice : string) (width height : Z)
           (platform_name : string) : M unit :=
  let '(name, ext) := PyStr.splitext input_file in
  let output_file := name ++ "_cropped_" ++ clean_platform crop_choice ++ ext in
  print (MsgTarget platform_name) ;;;
  print (MsgOutput output_file) ;;;
  try_except
    (ffmpeg_run input_file (crop_filter width height) output_file ;;;
     print (MsgSuccess "cropped") ;;;
     show_new_file output_file)
    (fun e => match e with
              | EngineError => Some (print (MsgEngineError "cropping"))
              | _ => None
              end).

(** Lines 388-470, from the chosen option on. *)
Definition crop_with (input_file crop_choice : string) : M unit :=
  dims <- crop_dimensions input_file crop_choice ;;
  match dims with
  | None => ret tt
  | Some (width, height, platform_name) =>
      crop_run input_file crop_choice width height platform_name
  end.

(** Lines 346-470: the body of the outer [try]. *)
Definition crop_body (video_files : list string) : M unit :=
  s <- prompt_ask "Select video file" ;;
  n <- lift (py_int s) ;;
  let choice := n - 1 in
  if (choice <? 0) || (choice >=? Z.of_nat (List.length video_files)) then
    print MsgInvalidSelection
  else
    input_file <- lift (py_index video_files choice) ;;
    print (MsgSelected input_file) ;;;
    info <- get_video_info input_file ;;
    match info with
    | None => ret tt
    | Some info =>
        print (MsgResolution (info_width info) (info_height info)) ;;;
        print (MsgOptionsPanel "Crop Options") ;;;
        crop_choice <- prompt_choices "Select crop option"
                                      ["1"; "2"; "3"; "4"; "5"; "6"] ;;
        crop_with input_file crop_choice
    end.

Definition crop_video : M unit :=
  print (MsgHeader "VIDEO CROP MODE (Social Media)") ;;;
  video_files <- list_video_files ;;
  match video_files with
  | [] => ret tt
  | _ :: _ => try_except (crop_body video_files) flow_handler
  end.

(** *** main *)

(** Lines 484-508: one prompt of the main menu and its dispatch; [true]
    is [break]. *)
Definition main_dispatch : M bool :=
  try_except
    (choice <- prompt_choices "Enter your choice" ["1"; "2"; "3"; "4"; "5"] ;;
     stop <-
       (if String.eqb choice "1" then resize_video ;;; ret false
        else if String.eqb choice "2" then split_video ;;; ret false
        else if String.eqb choice "3" then crop_video ;;; ret false
        else if String.eqb choice "4" then list_video_files ;;; ret false
        else if String.eqb choice "5" then print MsgGoodbye ;;; ret true
        else ret false) ;;
     if stop : bool then ret true
     else if mem choice ["1"; "2"; "3"; "4"] then
            prompt_ask_default "Press Enter to continue..." EmptyString ;;;
            print MsgClear ;;;
            ret false
          else ret false)
    (fun e => match e with
              | KeyboardInterrupt =>
                  Some (print MsgCancelled ;;;
                        choice <- prompt_choices_default
                                    "Do you want to exit? (y/n)" ["y"; "n"] "n" ;;
                        if String.eqb (PyStr.lower choice) "y" then ret true
                        else print MsgClear ;;; ret false)
              | _ => None
              end).

(** The [while True] loop, unrolled at most [fuel] times; [Ok false]
    means the unrolling was too short. *)
Fixpoint main_loop (fuel : nat) : M bool :=
  match fuel with
  | O => ret false
  | S fuel' =>
      print MsgBanner ;;;
      print MsgMenu ;;;
      stop <- main_dispatch ;;
      if stop : bool then ret true else main_loop fuel'
  end.

Definition main (fuel : nat) : M bool :=
  try_except (main_loop fuel)
    (fun e => match e with
              | KeyboardInterrupt => None
              | _ => Some (print MsgUnexpected ;;; ret true)
              end).

End Flows.

(** ** Checkable facts about the crop presets *)

(** The crop boxes behind options 1 to 5 of [crop_options]. *)
Definition preset_box (crop_choice : string) : option (Z * Z) :=
  if String.eqb crop_choice "6" then None
  else match lookup crop_choice crop_options with
       | Some (ratio, _) =>
           match parse_ratio ratio with
           | Ok wh => Some wh
           | Raise _ => None
           end
       | None => None
       end.

(** Lines 412-413 for a given scale. *)
Definition scaled_box (w h : Z) (scale : float) : result (Z * Z) :=
  rbind (to_int (mul (of_int w) scale)) (fun w' =>
  rbind (to_int (mul (of_int h) scale)) (fun h' => Ok (w', h'))).

(** The resolved box fits the input frame. *)
Definition box_fits (iw ih : Z) (r : result (Z * Z)) : bool :=
  match r with
  | Ok (w', h') => (w' <=? iw) && (h' <=? ih)
  | Raise _ => false
  end.

(** The resolved box keeps the ratio [w : h] up to the truncation of each
    side: [- h <= w' * h - h' * w <= w]. *)
Definition ratio_kept (w h : Z) (r : result (Z * Z)) : bool :=
  match r with
  | Ok (w', h') => (- h <=? w' * h - h' * w) && (w' * h - h' * w <=? w)
  | Raise _ => false
  end.

Definition box_ok (w h iw ih : Z) (r : result (Z * Z)) : bool :=
  box_fits iw ih r && ratio_kept w h r.

(** A non-negative float below one: zero, or a 53-bit mantissa with an
    exponent under [-52]. *)
Definition below_one (x : float) : bool :=
  match x with
  | S754_zero false => true
  | S754_finite false _ e => e <=? -53
  | _ => false
  end.

Definition zrange (n : Z) : list Z := map Z.of_nat (seq 0 (Z.to_nat n)).

(** [i / d] for every [0 <= i < d], with the box it leads to. *)
Definition ratio_table (w h d : Z) : list (Z * float * result (Z * Z)) :=
  map (fun i => let s := div (of_int i) (of_int d) in (i, s, scaled_box w h s))
      (zrange d).

(** Both input sides smaller than the preset. *)
Definition check_small (w h : Z) : bool :=
  let tw := ratio_table w h w in
  let th := ratio_table w h h in
  forallb (fun a => ratio_kept w h (snd a)) tw
  && forallb (fun b => ratio_kept w h (snd b)) th
  && forallb (fun a =>
       forallb (fun b =>
         box_fits (fst (fst a)) (fst (fst b))
                  (if ltb (snd (fst b)) (snd (fst a)) then snd b else snd a)) th) tw.

(** Input at least as wide as the preset: the height ratio decides. *)
Definition check_wide (w h : Z) : bool :=
  forallb (fun b => below_one (snd (fst b)) && box_ok w h w (fst (fst b)) (snd b))
          (ratio_table w h h).

(** Input at least as tall as the preset: the width ratio decides. *)
Definition check_tall (w h : Z) : bool :=
  forallb (fun a => below_one (snd (fst a)) && box_ok w h (fst (fst a)) h (snd a))
          (ratio_table w h w).

(** The five boxes that [preset_box] can give. *)
Definition preset_boxes : list (Z * Z) :=
  [(1080, 1920); (1080, 1080); (1200, 630); (1080, 608); (1080, 1350)].

Definition check_preset (wh : Z * Z) : bool :=
  let '(w, h) := wh in
  (0 <? w) && (w <? 2 ^ 53) && (0 <? h) && (h <? 2 ^ 53)
  && check_small w h && check_wide w h && check_tall w h.

(** ** Observing a run *)

(** Operations that only read the directory or the metadata. *)
Definition is_read (op : io_op) : bool :=
  match op with
  | IoListdir _ | IoGetsize _ | IoProbe _ | IoExists _ => true
  | IoMakedirs _ | IoTransform _ _ _ | IoSegment _ _ _ => false
  end.

(** The operations performed between two worlds of one run. *)
Definition new_io (w w' : World) : list io_op :=
  skipn (List.length (io w)) (io w').

(** The lines printed between two worlds of one run. *)
Definition new_console (w w' : World) : list message :=
  skipn (List.length (console w)) (console w').

(** ** Sample environments *)

(** A 1920x1080 source lasting 125 seconds. *)
Definition hd_source : VideoInfo := mkInfo 1920 1080 (of_int 125).

(** [float(s)] restricted to integer numerals. *)
Definition float_of_numeral (s : string) : option float :=
  option_map of_int (PyStr.int_of_str s).

(** A directory with [a.mp4], [b.txt] and [c.MOV]; every probe answers
    [hd_source]; the engine succeeds or fails as [engine_ok] says. *)
Definition studio (engine_ok : bool) : Env :=
  mkEnv (fun _ => ["a.mp4"; "b.txt"; "c.MOV"])
        (fun _ _ => 1048576)
        (fun _ _ => Some hd_source)
        (fun _ _ _ _ => engine_ok)
        (fun _ _ _ _ => engine_ok)
        float_of_numeral.

(** The same directory when no probe succeeds after the first [n]
    operations. *)
Definition studio_probe_until (n : nat) : Env :=
  mkEnv (fun _ => ["a.mp4"; "b.txt"; "c.MOV"])
        (fun _ _ => 1048576)
        (fun k _ => if (k <? n)%nat then Some hd_source else None)
        (fun _ _ _ _ => true)
        (fun _ _ _ _ => true)
        float_of_numeral.

Definition start (keys : list key) : World := mkWorld keys [] [] [].

(** What a run of the split flow may do between [w] and [w']: some
    reads, then either nothing more, or the test for [segments], its
    creation when absent, and at most one call of the engine on one of
    the listed [files], with the prefix built from that file's stem. *)
Definition split_footprint (files : list string) (w w' : World) : Prop :=
  exists reads,
    forallb is_read reads = true /\
    ((io w' = io w ++ reads /\ paths w' = paths w)%list \/
     exists input seg eng,
       In input files /\
       (io w' = io w ++ reads
                ++ IoExists "segments"
                :: (if mem "segments" (paths w) then [] else [IoMakedirs "segments"])
                ++ eng)%list /\
       (eng = [] \/
        eng = [IoSegment input
                         ("segments/" ++ fst (PyStr.splitext input) ++ "_segment")
                         seg]) /\
       mem "segments" (paths w') = true).

(** ** Statements about the flows *)

(** A name that ends, letter case apart, in one of the video extensions. *)
Definition has_video_extension (name : string) : Prop :=
  exists ext base suffix,
    In ext video_extensions /\ name = base ++ suffix /\ PyStr.lower suffix = ext.

(** Every crop box handed to the engine lies within the source frame,
    for a source whose metadata does not change during the run. *)
Definition crop_within_source (E : Env) (w : World) : Prop :=
  forall vi,
    (forall k f, env_probe E k f = Some vi) ->
    forall input wd ht x y out,
      In (IoTransform input (Crop wd ht x y) out) (new_io w (snd (crop_video E w))) ->
      wd <= info_width vi /\ ht <= info_height vi.

(** The flow ends on its first line of input: it returns normally, leaves
    the rest of the input unread, and has written nothing. *)
Definition aborts_on_first_line (flow : M unit) (w : World) : Prop :=
  fst (flow w) = Ok tt /\
  stdin (snd (flow w)) = tl (stdin w) /\
  forallb is_read (new_io w (snd (flow w))) = true /\
  paths (snd (flow w)) = paths w.

(** The outcome of a flow that reported an invalid number and stopped
    without writing: [rest] is the input left for the menu. *)
Definition rejected_number (w : World) (rest : list key)
           (out : result unit * World) : Prop :=
  fst out = Ok tt /\
  stdin (snd out) = rest /\
  last (console (snd out)) MsgBanner = MsgValidNumber /\
  forallb is_read (new_io w (snd out)) = true /\
  paths (snd out) = paths w.

(** The prompt asks again after the line [bad]: it goes on exactly as if
    started on the rest of the input, with only more text on the console. *)
Definition reprompts {A} (prompt : M A) (bad : string) : Prop :=
  forall w rest,
    stdin w = Line bad :: rest ->
    exists msgs,
      prompt w = prompt (mkWorld rest (console w ++ msgs) (io w) (paths w)).

(** ** The engine's reading of a crop offset *)

Fixpoint strip_prefix (pre s : string) : option string :=
  match pre with
  | EmptyString => Some s
  | String c pre' =>
      match s with
      | String d s' => if Ascii.eqb c d then strip_prefix pre' s' else None
      | EmptyString => None
      end
  end.

Fixpoint strip_suffix (suf s : string) : option string :=
  if String.eqb s suf then Some EmptyString
  else match s with
       | EmptyString => None
       | String c s' => option_map (String c) (strip_suffix suf s')
       end.

(** The value the engine gives to an offset expression [(v-N)/2], where
    the variable [v] ([iw] or [ih], the input width or height) stands for
    [extent]. *)
Definition centered_offset (v : string) (extent : Z) (expr : string) : option Q :=
  match strip_prefix ("(" ++ v ++ "-") expr with
  | Some rest =>
      match strip_suffix ")/2" rest with
      | Some n =>
          match NilZero.int_of_string n with
          | Some d => Some ((extent - Z.of_int d) # 2)
          | None => None
          end
      | None => None
      end
  | None => None
  end.

(** ** A short clip and a fractional segment duration *)

(** [float("0.1")]. *)
Definition tenth : float := S754_finite false 7205759403792794 (-56).

(** The rational a finite float stands for. *)
Definition float_value (x : float) : option Q :=
  match x with
  | S754_zero _ => Some 0%Q
  | S754_finite s m e =>
      let n := if s then Zneg m else Zpos m in
      Some (match e with
            | Z0 => n # 1
            | Zpos _ => (n * 2 ^ e) # 1
            | Zneg p => n # (2 ^ p)
            end)
  | _ => None
  end.

(** One video of one second; [float] knows [0.1] and the integer
    numerals. *)
Definition short_clip : Env :=
  mkEnv (fun _ => ["clip.mp4"])
        (fun _ _ => 1048576)
        (fun _ _ => Some (mkInfo 1920 1080 (of_int 1)))
        (fun _ _ _ _ => true)
        (fun _ _ _ _ => true)
        (fun s => if String.eqb s "0.1" then Some tenth else float_of_numeral s).

(** In the listing made at [w], the [n]-th video file is [input], and its
    probe, which comes right after the listing, answers [info]. *)
Definition chosen (E : Env) (w : World) (n : Z) (input : string)
           (info : VideoInfo) : Prop :=
  let files := List.filter is_video_file (env_listdir E (now w)) in
  1 <= n <= Z.of_nat (List.length files) /\
  nth_error files (Z.to_nat (n - 1)) = Some input /\
  env_probe E (now w + 1 + List.length files) input = Some info.

(** * Properties *)

(** ** Binary64 division of exactly representable integers *)

Lemma digits2_pos_size p : digits2_pos p = Pos.size p.
Proof. induction p; simpl; congruence. Qed.

Lemma digits_bounds p :
  2 ^ (Zpos (digits2_pos p) - 1) <= Zpos p < 2 ^ Zpos (digits2_pos p).
Proof.
  rewrite digits2_pos_size. split.
  - pose proof (Pos.size_le p) as H.
    assert (Hp : Zpos (2 ^ Pos.size p) <= Zpos p~0) by (apply Pos2Z.pos_le_pos; exact H).
    rewrite Pos2Z.inj_pow in Hp.
    replace (Zpos (Pos.size p)) with (Z.succ (Zpos (Pos.size p) - 1)) in Hp by lia.
    rewrite Z.pow_succ_r in Hp by lia. lia.
  - pose proof (Pos.size_gt p) as H.
    assert (Hp : Zpos p < Zpos (2 ^ Pos.size p)) by (apply Pos2Z.pos_lt_pos; exact H).
    rewrite Pos2Z.inj_pow in Hp. exact Hp.
Qed.

Lemma shr_1_m mrs : 0 <= shr_m mrs -> shr_m (shr_1 mrs) = shr_m mrs / 2.
Proof.
  destruct mrs as [m r s]; simpl. intros Hm.
  destruct m as [|p|p]; try lia; try reflexivity.
  destruct p; simpl.
  - rewrite Pos2Z.inj_xI. apply Z.div_unique with 1; lia.
  - rewrite Pos2Z.inj_xO. apply Z.div_unique with 0; lia.
  - reflexivity.
Qed.

Lemma iter_shr_m p : forall mrs,
  0 <= shr_m mrs -> shr_m (iter_pos shr_1 p mrs) = shr_m mrs / 2 ^ Zpos p.
Proof.
  assert (Hpow : forall k, 0 <= k -> 0 < 2 ^ k) by (intros; apply Z.pow_pos_nonneg; lia).
  induction p; intros mrs Hm; simpl iter_pos.
  - pose proof (Hpow (Zpos p) ltac:(lia)) as Hp.
    assert (H1 : 0 <= shr_m (shr_1 mrs)) by (rewrite shr_1_m by lia; apply Z.div_pos; lia).
    assert (H2 : 0 <= shr_m (iter_pos shr_1 p (shr_1 mrs)))
      by (rewrite IHp by lia; apply Z.div_pos; lia).
    rewrite IHp, IHp, shr_1_m by lia.
    rewrite !Z.div_div by lia.
    f_equal. change (Zpos p~1) with (2 * Zpos p + 1).
    replace (2 * Zpos p + 1) with (1 + Zpos p + Zpos p) by lia.
    rewrite !Z.pow_add_r by lia. change (2 ^ 1) with 2. lia.
  - pose proof (Hpow (Zpos p) ltac:(lia)) as Hp.
    assert (H2 : 0 <= shr_m (iter_pos shr_1 p mrs))
      by (rewrite IHp by lia; apply Z.div_pos; lia).
    rewrite IHp, IHp by lia.
    rewrite !Z.div_div by lia.
    f_equal. change (Zpos p~0) with (2 * Zpos p).
    replace (2 * Zpos p) with (Zpos p + Zpos p) by lia.
    rewrite Z.pow_add_r by lia. reflexivity.
  - rewrite shr_1_m by lia. reflexivity.
Qed.

Lemma shr_record_of_loc_m m l : shr_m (shr_record_of_loc m l) = m.
Proof. destruct l as [|[]]; reflexivity. Qed.

(** Shifting to the format's exponent keeps a positive mantissa positive
    and never lowers the exponent. *)
Lemma shr_fexp_shape m e l :
  0 < m -> emin prec emax <= e ->
  0 < shr_m (fst (shr_fexp prec emax m e l)) /\
  e <= snd (shr_fexp prec emax m e l) /\
  fexp prec emax (Zdigits2 m + e) <= snd (shr_fexp prec emax m e l).
Proof.
  intros Hm He. unfold shr_fexp, shr.
  destruct m as [|p|p]; try lia. simpl Zdigits2.
  pose proof (digits_bounds p) as Hd.
  remember (Zpos (digits2_pos p)) as d eqn:Ed.
  assert (Hdpos : 0 < d) by (subst d; lia).
  unfold fexp, emin, prec, emax in *.
  destruct (Z.max (d + e - 53) (3 - 1024 - 53) - e) as [|n|n] eqn:En; simpl fst; simpl snd.
  - rewrite shr_record_of_loc_m. lia.
  - rewrite iter_shr_m by (rewrite shr_record_of_loc_m; lia).
    rewrite shr_record_of_loc_m.
    assert (Hn : Zpos n = d - 53) by lia.
    split; [|lia].
    apply Z.div_str_pos. split; [apply Z.pow_pos_nonneg; lia|].
    apply Z.le_trans with (2 ^ (d - 1)); [apply Z.pow_le_mono_r; lia | lia].
  - rewrite shr_record_of_loc_m. lia.
Qed.

Lemma round_nearest_even_pos m l : 0 < m -> 0 < round_nearest_even m l.
Proof.
  intros H. unfold round_nearest_even. destruct l as [|[]]; try lia.
  destruct (Z.even m); lia.
Qed.

(** Rounding a positive mantissa gives a positive float (or overflows)
    whose exponent is at least the format's exponent for the input. *)
Lemma binary_round_aux_shape s mx ex lx :
  0 < mx -> emin prec emax <= ex ->
  binary_round_aux prec emax s mx ex lx = S754_infinity s \/
  exists m e, binary_round_aux prec emax s mx ex lx = S754_finite s m e /\
              fexp prec emax (Zdigits2 mx + ex) <= e.
Proof.
  intros Hm He. unfold binary_round_aux.
  pose proof (shr_fexp_shape mx ex lx Hm He) as (H1 & H2 & H3).
  destruct (shr_fexp prec emax mx ex lx) as [mrs1 e1]. simpl fst in *; simpl snd in *.
  pose proof (round_nearest_even_pos (shr_m mrs1) (loc_of_shr_record mrs1) H1) as Hr.
  pose proof (shr_fexp_shape _ e1 loc_Exact Hr ltac:(lia)) as (K1 & K2 & K3).
  destruct (shr_fexp prec emax _ e1 loc_Exact) as [mrs2 e2]. simpl fst in *; simpl snd in *.
  destruct (shr_m mrs2) as [|m|m]; try lia.
  destruct (e2 <=? emax - prec); [right | left; reflexivity].
  exists m, e2. split; [reflexivity | lia].
Qed.

Lemma iter_xO_spec k : forall p,
  digits2_pos (Pos.iter xO p k) = (digits2_pos p + k)%positive /\
  Zpos (Pos.iter xO p k) = Zpos p * 2 ^ Zpos k.
Proof.
  induction k using Pos.peano_ind; intros p.
  - simpl. split; [lia | rewrite Pos2Z.inj_xO; change (2 ^ 1) with 2; lia].
  - rewrite Pos.iter_succ. destruct (IHk p) as [Hd Hv]. split.
    + simpl. rewrite Hd. lia.
    + rewrite Pos2Z.inj_xO, Hv, Pos2Z.inj_succ, Z.pow_succ_r by lia. lia.
Qed.

(** A 53-bit mantissa with an exponent in range is already rounded. *)
Lemma binary_round_aux_exact s m e :
  Zpos (digits2_pos m) = 53 -> emin prec emax <= e <= emax - prec ->
  binary_round_aux prec emax s (Zpos m) e loc_Exact = S754_finite s m e.
Proof.
  intros Hd He.
  assert (Hs : shr_fexp prec emax (Zpos m) e loc_Exact
               = ({| shr_m := Zpos m; shr_r := false; shr_s := false |}, e)).
  { unfold shr_fexp. simpl Zdigits2. rewrite Hd.
    replace (fexp prec emax (53 + e) - e) with 0
      by (unfold fexp, emin, prec, emax in *; lia).
    reflexivity. }
  unfold binary_round_aux. rewrite Hs. simpl. rewrite Hs. simpl.
  assert (Hle : (e <=? 971) = true) by (apply Z.leb_le; unfold emax, prec in He; lia).
  rewrite Hle. reflexivity.
Qed.

(** [float(a)] is exact for [0 < a < 2^53]: a normalised mantissa
    [a * 2^(-e)] with exponent [e]. *)
Lemma of_int_pos a :
  0 < a < 2 ^ 53 ->
  exists m e, of_int a = S754_finite false m e /\
              Zpos (digits2_pos m) = 53 /\ -52 <= e <= 0 /\ Zpos m = a * 2 ^ (- e).
Proof.
  intros [Ha Hb]. destruct a as [|p|p]; try lia.
  pose proof (digits_bounds p) as Hd.
  assert (Hd53 : Zpos (digits2_pos p) <= 53).
  { destruct (Z_le_gt_dec (Zpos (digits2_pos p)) 53) as [|Hgt]; [assumption|].
    assert (2 ^ 53 <= 2 ^ (Zpos (digits2_pos p) - 1)) by (apply Z.pow_le_mono_r; lia). lia. }
  unfold of_int, binary_normalize, binary_round, shl_align.
  rewrite Z.add_0_r.
  replace (fexp prec emax (Zpos (digits2_pos p)) - 0) with (Zpos (digits2_pos p) - 53)
    by (unfold fexp, emin, prec, emax; lia).
  destruct (Zpos (digits2_pos p) - 53) as [|k|k] eqn:Ek; try lia.
  - exists p, 0. rewrite binary_round_aux_exact by (unfold emin, prec, emax; lia).
    repeat split; try lia.
  - destruct (iter_xO_spec k p) as [Kd Kv].
    exists (Pos.iter xO p k), (fexp prec emax (Zpos (digits2_pos p))).
    assert (Hf : fexp prec emax (Zpos (digits2_pos p)) = Zneg k)
      by (unfold fexp, emin, prec, emax; lia).
    rewrite Hf.
    rewrite binary_round_aux_exact by (unfold emin, prec, emax; rewrite ?Kd; lia).
    repeat split; try lia; try (rewrite Kd; lia).
    rewrite Kv. reflexivity.
Qed.

Lemma digits_lower q k : 0 <= k -> 2 ^ k <= q -> k + 1 <= Zdigits2 q.
Proof.
  intros Hk Hq. assert (0 < 2 ^ k) by (apply Z.pow_pos_nonneg; lia).
  destruct q as [|p|p]; try lia. simpl.
  pose proof (digits_bounds p) as [_ Hu].
  destruct (Z_lt_le_dec k (Zpos (digits2_pos p))) as [|Hle]; [lia|].
  assert (2 ^ Zpos (digits2_pos p) <= 2 ^ k) by (apply Z.pow_le_mono_r; lia). lia.
Qed.

(** The quotient of two exactly representable positive integers, the
    numerator not the smaller one, is a float that is at least one. *)
Lemma div_ge_one a b :
  0 < b -> b <= a -> a < 2 ^ 53 ->
  div (of_int a) (of_int b) = S754_infinity false \/
  exists m e, div (of_int a) (of_int b) = S754_finite false m e /\ -52 <= e.
Proof.
  intros Hb Hab Ha.
  destruct (of_int_pos a ltac:(lia)) as (mx & ex & Ex & Dx & Bx & Vx).
  destruct (of_int_pos b ltac:(lia)) as (my & ey & Ey & Dy & By & Vy).
  rewrite Ex, Ey. unfold div, SFdiv, SFdiv_core_binary. simpl Zdigits2.
  rewrite Dx, Dy.
  replace (Z.min (fexp prec emax (53 + ex - (53 + ey))) (ex - ey)) with (ex - ey - 53)
    by (unfold fexp, emin, prec, emax; lia).
  replace (ex - ey - (ex - ey - 53)) with 53 by lia.
  rewrite Z.shiftl_mul_pow2 by lia.
  pose proof (Z.div_eucl_eq (Zpos mx * 2 ^ 53) (Zpos my) ltac:(lia)) as Hdiv.
  pose proof (Z.mod_pos_bound (Zpos mx * 2 ^ 53) (Zpos my) ltac:(lia)) as Hmod.
  unfold Z.modulo in Hmod.
  destruct (Z.div_eucl (Zpos mx * 2 ^ 53) (Zpos my)) as [q r].
  simpl xorb.
  assert (Hpow : 0 < 2 ^ (53 - ex + ey)) by (apply Z.pow_pos_nonneg; lia).
  assert (Hq : 2 ^ (53 - ex + ey) <= q).
  { assert (Hnum : Zpos my * 2 ^ (53 - ex + ey) <= Zpos mx * 2 ^ 53).
    { rewrite Vx, Vy.
      replace (53 - ex + ey) with (53 + (- ex) - (- ey)) by lia.
      assert (E1 : 2 ^ (53 + - ex) = 2 ^ (53 + - ex - - ey) * 2 ^ (- ey)).
      { rewrite <- Z.pow_add_r by lia. f_equal. lia. }
      assert (E2 : 2 ^ (53 + - ex) = 2 ^ 53 * 2 ^ (- ex)) by (apply Z.pow_add_r; lia).
      assert (0 < 2 ^ (53 + - ex)) by (apply Z.pow_pos_nonneg; lia).
      replace (b * 2 ^ (- ey) * 2 ^ (53 + - ex - - ey)) with (b * 2 ^ (53 + - ex)) by (rewrite E1; ring).
      replace (a * 2 ^ (- ex) * 2 ^ 53) with (a * 2 ^ (53 + - ex)) by (rewrite E2; ring).
      nia. }
    nia. }
  pose proof (digits_lower q (53 - ex + ey) ltac:(lia) Hq) as Hdq.
  destruct (binary_round_aux_shape false q (ex - ey - 53) (new_location (Zpos my) r))
    as [Hinf | (m & e & Hfin & He)];
    [lia | unfold emin, prec, emax; lia | left; exact Hinf | right].
  exists m, e. split; [exact Hfin|].
  unfold fexp, emin, prec, emax in He. lia.
Qed.

(** A float below one compares below a float that is at least one. *)
Lemma ltb_below_one x y :
  below_one x = true ->
  (y = S754_infinity false \/ exists m e, y = S754_finite false m e /\ -52 <= e) ->
  ltb x y = true /\ ltb y x = false.
Proof.
  intros Hx [-> | (m & e & -> & He)];
    destruct x as [[]|s| |[] mx ex]; try discriminate Hx; simpl in Hx;
    unfold ltb, SFltb, SFcompare; try (split; reflexivity).
  apply Z.leb_le in Hx.
  assert (H1 : (ex ?= e) = Lt) by (apply Z.compare_lt_iff; lia).
  assert (H2 : (e ?= ex) = Gt) by (apply Z.compare_gt_iff; lia).
  rewrite H1, H2. split; reflexivity.
Qed.

(** ** Crop presets against the source frame *)

Lemma preset_box_cases c w h :
  preset_box c = Some (w, h) -> In (w, h) preset_boxes.
Proof.
  unfold preset_box, crop_options, lookup.
  destruct (String.eqb c "6"); [discriminate|].
  repeat match goal with
         | |- context [String.eqb ?k c] =>
             destruct (String.eqb k c);
             [vm_compute; intros H; injection H as <- <-; tauto|]
         end.
  destruct (String.eqb "6" c); vm_compute; discriminate.
Qed.

Lemma preset_boxes_checked : forallb check_preset preset_boxes = true.
Proof. vm_cast_no_check (eq_refl true). Qed.

Lemma in_zrange i d : 0 <= i < d -> In i (zrange d).
Proof.
  intros H. unfold zrange. apply in_map_iff. exists (Z.to_nat i). split.
  - apply Z2Nat.id. lia.
  - apply in_seq. lia.
Qed.

Lemma in_ratio_table w h d i :
  0 <= i < d ->
  In (i, div (of_int i) (of_int d), scaled_box w h (div (of_int i) (of_int d)))
     (ratio_table w h d).
Proof.
  intros H. unfold ratio_table. apply in_map_iff. exists i. split.
  - reflexivity.
  - apply in_zrange. exact H.
Qed.

Lemma box_ok_spec w h iw ih r :
  box_fits iw ih r = true -> ratio_kept w h r = true ->
  exists w' h', r = Ok (w', h') /\ w' <= iw /\ h' <= ih /\
                - h <= w' * h - h' * w <= w.
Proof.
  destruct r as [[w' h']|e]; simpl; [|discriminate].
  rewrite !andb_true_iff, !Z.leb_le. intros [H1 H2] [H3 H4].
  exists w', h'. repeat split; assumption.
Qed.

(** Whenever a checked box exceeds the source frame on a side, the
    scaled box fits the frame and keeps the ratio up to truncation. *)
Lemma scale_to_fit_checked w h iw ih :
  check_preset (w, h) = true ->
  0 <= iw < 2 ^ 53 -> 0 <= ih < 2 ^ 53 ->
  w > iw \/ h > ih ->
  exists w' h',
    scale_to_fit w h iw ih = Ok (true, (w', h')) /\
    scaled_box w h (py_min (div (of_int iw) (of_int w))
                           (div (of_int ih) (of_int h))) = Ok (w', h') /\
    w' <= iw /\ h' <= ih /\ - h <= w' * h - h' * w <= w.
Proof.
  unfold check_preset. rewrite !andb_true_iff, !Z.ltb_lt.
  intros [[[[[[Hw0 Hw1] Hh0] Hh1] Hsmall] Hwide] Htall] Hiw Hih Hex.
  assert (Hbox : exists w' h',
    scaled_box w h (py_min (div (of_int iw) (of_int w))
                           (div (of_int ih) (of_int h))) = Ok (w', h') /\
    w' <= iw /\ h' <= ih /\ - h <= w' * h - h' * w <= w).
  { destruct (Z_lt_le_dec iw w) as [Hlw | Hgw]; destruct (Z_lt_le_dec ih h) as [Hlh | Hgh].
    - (* both sides smaller *)
      unfold check_small in Hsmall. rewrite !andb_true_iff, !forallb_forall in Hsmall.
      destruct Hsmall as [[Hrw Hrh] Hfit].
      pose proof (in_ratio_table w h w iw ltac:(lia)) as Ia.
      pose proof (in_ratio_table w h h ih ltac:(lia)) as Ib.
      pose proof (Hfit _ Ia) as Ha. rewrite forallb_forall in Ha.
      pose proof (Ha _ Ib) as Hb. specialize (Hrw _ Ia). specialize (Hrh _ Ib).
      cbn [fst snd] in Hb, Hrw, Hrh.
      unfold py_min.
      destruct (ltb (div (of_int ih) (of_int h)) (div (of_int iw) (of_int w)));
        eapply box_ok_spec; eassumption.
    - (* only the width is smaller: the width ratio is the scale *)
      unfold check_tall in Htall. rewrite forallb_forall in Htall.
      pose proof (Htall _ (in_ratio_table w h w iw ltac:(lia))) as Ha.
      cbn [fst snd] in Ha. apply andb_true_iff in Ha as [Hone Hok].
      destruct (ltb_below_one _ _ Hone (div_ge_one ih h ltac:(lia) Hgh ltac:(lia))) as [_ Hlt].
      unfold py_min. rewrite Hlt.
      apply andb_true_iff in Hok as [Hf Hr].
      destruct (box_ok_spec _ _ _ _ _ Hf Hr) as (w' & h' & E & B1 & B2 & B3).
      exists w', h'. repeat split; try assumption; lia.
    - (* only the height is smaller: the height ratio is the scale *)
      unfold check_wide in Hwide. rewrite forallb_forall in Hwide.
      pose proof (Hwide _ (in_ratio_table w h h ih ltac:(lia))) as Hb.
      cbn [fst snd] in Hb. apply andb_true_iff in Hb as [Hone Hok].
      destruct (ltb_below_one _ _ Hone (div_ge_one iw w ltac:(lia) Hgw ltac:(lia))) as [Hlt _].
      unfold py_min. rewrite Hlt.
      apply andb_true_iff in Hok as [Hf Hr].
      destruct (box_ok_spec _ _ _ _ _ Hf Hr) as (w' & h' & E & B1 & B2 & B3).
      exists w', h'. repeat split; try assumption; lia.
    - lia. }
  destruct Hbox as (w' & h' & E & B). exists w', h'. split; [|split; [exact E | exact B]].
  unfold scale_to_fit, int_truediv.
  assert (Hc : (w >? iw) || (h >? ih) = true).
  { apply orb_true_iff. destruct Hex; [left | right]; apply Z.gtb_lt; lia. }
  rewrite Hc.
  replace (w =? 0) with false by (symmetry; apply Z.eqb_neq; lia).
  replace (h =? 0) with false by (symmetry; apply Z.eqb_neq; lia).
  cbn [rbind]. unfold scaled_box in E.
  destruct (to_int (mul (of_int w) _)) as [a|]; [|discriminate E]. cbn [rbind] in *.
  destruct (to_int (mul (of_int h) _)) as [b|]; [|discriminate E]. cbn [rbind] in *.
  injection E as <- <-. reflexivity.
Qed.

Lemma preset_box_checked c w h :
  preset_box c = Some (w, h) -> check_preset (w, h) = true.
Proof.
  intros H. apply preset_box_cases in H.
  pose proof preset_boxes_checked as Hall. rewrite forallb_forall in Hall.
  apply Hall. exact H.
Qed.

(** C1: for every preset crop selection whose target width or height
    exceeds the probed source width or height, the resolved dimensions are
    obtained from [scale = min(source_width / target_width,
    source_height / target_height)] by multiplying both target dimensions
    by [scale] and truncating each product to an integer; the result is
    no wider and no taller than the source, and its ratio is the preset's
    up to the truncation of each side
    ([- h <= w' * h - h' * w <= w], that is, [w'/h'] and [w/h] differ by
    at most what one unit on one side makes).  The arithmetic is
    Python's: binary64 quotients and products.  Source sides are
    non-negative integers below [2^53]. *)
Theorem preset_crop_scaled_to_fit :
  forall crop_choice w h iw ih,
    preset_box crop_choice = Some (w, h) ->
    0 <= iw < 2 ^ 53 -> 0 <= ih < 2 ^ 53 ->
    w > iw \/ h > ih ->
    exists scale_w scale_h w' h',
      int_truediv iw w = Ok scale_w /\
      int_truediv ih h = Ok scale_h /\
      to_int (mul (of_int w) (py_min scale_w scale_h)) = Ok w' /\
      to_int (mul (of_int h) (py_min scale_w scale_h)) = Ok h' /\
      scale_to_fit w h iw ih = Ok (true, (w', h')) /\
      w' <= iw /\ h' <= ih /\
      - h <= w' * h - h' * w <= w.
Proof.
  intros c w h iw ih Hbox Hiw Hih Hex.
  pose proof (preset_box_checked _ _ _ Hbox) as Hck.
  destruct (scale_to_fit_checked w h iw ih Hck Hiw Hih Hex)
    as (w' & h' & Hfit & Hsb & B1 & B2 & B3).
  unfold check_preset in Hck. rewrite !andb_true_iff, !Z.ltb_lt in Hck.
  destruct Hck as [[[[[[Hw0 _] Hh0] _] _] _] _].
  exists (div (of_int iw) (of_int w)), (div (of_int ih) (of_int h)), w', h'.
  unfold int_truediv.
  replace (w =? 0) with false by (symmetry; apply Z.eqb_neq; lia).
  replace (h =? 0) with false by (symmetry; apply Z.eqb_neq; lia).
  unfold scaled_box in Hsb.
  destruct (to_int (mul (of_int w) _)) as [a|]; [|discriminate Hsb]. cbn [rbind] in Hsb.
  destruct (to_int (mul (of_int h) _)) as [b|]; [|discriminate Hsb]. cbn [rbind] in Hsb.
  injection Hsb as <- <-.
  repeat split; try reflexivity; try assumption; lia.
Qed.

Lemma preset_crop_scaled_to_fit_witness :
  exists scale_w scale_h w' h',
    int_truediv 1920 1080 = Ok scale_w /\
    int_truediv 1080 1920 = Ok scale_h /\
    to_int (mul (of_int 1080) (py_min scale_w scale_h)) = Ok w' /\
    to_int (mul (of_int 1920) (py_min scale_w scale_h)) = Ok h' /\
    scale_to_fit 1080 1920 1920 1080 = Ok (true, (w', h')) /\
    w' <= 1920 /\ h' <= 1080 /\
    - 1920 <= w' * 1920 - h' * 1080 <= 1080.
Proof.
  apply (preset_crop_scaled_to_fit "1" 1080 1920 1920 1080).
  - reflexivity.
  - lia.
  - lia.
  - right. lia.
Defined.

(** ** Effects of the prompts and of the probes *)

Ltac wsimpl :=
  unfold add_io, add_console, add_path, set_stdin, now in *;
  cbn [stdin console io paths fst snd] in *.

(** Unfold the monad and the primitive effects, then project. *)
Ltac mred :=
  cbv beta iota zeta delta
      [bind ret raise print lift try_except
       os_listdir os_path_getsize os_path_exists os_makedirs
       ffmpeg_probe ffmpeg_run split_video_ffmpeg_python
       add_io add_console add_path set_stdin now];
  cbn [stdin console io paths fst snd].

Lemma ask_loop_spec {A} text (validate : string -> A + message) keys :
  forall out, exists r keys' msgs,
    ask_loop text validate keys out = (r, keys', (out ++ msgs)%list).
Proof.
  induction keys as [|k keys IH]; intros out; simpl.
  - eauto.
  - destruct k as [s|].
    + destruct (validate s) as [a|err].
      * eauto.
      * destruct (IH (out ++ [MsgPrompt text; err])%list) as (r & keys' & msgs & ->).
        exists r, keys', ([MsgPrompt text; err] ++ msgs)%list.
        rewrite app_assoc. reflexivity.
    + eauto.
Qed.

(** A prompt reads and prints, and touches nothing else. *)
Lemma ask_spec {A} text (validate : string -> A + message) w :
  exists r keys msgs,
    ask text validate w = (r, mkWorld keys (console w ++ msgs) (io w) (paths w)).
Proof.
  unfold ask.
  destruct (ask_loop_spec text validate (stdin w) (console w)) as (r & keys & msgs & ->).
  eauto.
Qed.

Lemma ask_valid {A} text (validate : string -> A + message) w s rest a :
  stdin w = Line s :: rest -> validate s = inl a ->
  ask text validate w
  = (Ok a, mkWorld rest (console w ++ [MsgPrompt text]) (io w) (paths w)).
Proof. intros Hs Hv. unfold ask. rewrite Hs. simpl. rewrite Hv. reflexivity. Qed.

Lemma ask_invalid {A} text (validate : string -> A + message) w s rest err :
  stdin w = Line s :: rest -> validate s = inr err ->
  ask text validate w
  = ask text validate
        (mkWorld rest (console w ++ [MsgPrompt text; err]) (io w) (paths w)).
Proof. intros Hs Hv. unfold ask. rewrite Hs. simpl. rewrite Hv. reflexivity. Qed.

Lemma file_rows_spec E files :
  forall i w, exists rows,
    file_rows E i files w
    = (Ok rows, mkWorld (stdin w) (console w) (io w ++ map IoGetsize files) (paths w)).
Proof.
  induction files as [|f files IH]; intros i w; simpl.
  - exists []. unfold ret. rewrite app_nil_r. destruct w; reflexivity.
  - unfold bind, os_path_getsize. wsimpl.
    destruct (IH (i + 1) (mkWorld (stdin w) (console w) (io w ++ [IoGetsize f]) (paths w)))
      as (rows & ->). wsimpl.
    eexists. unfold ret. rewrite <- app_assoc. reflexivity.
Qed.

(** The listing: one [listdir] of the current directory, one [getsize]
    per video file, nothing written. *)
Lemma list_video_files_spec E w :
  exists msgs,
    list_video_files E w
    = (Ok (List.filter is_video_file (env_listdir E (now w))),
       mkWorld (stdin w) (console w ++ msgs)
               (io w ++ IoListdir "." :: map IoGetsize
                     (List.filter is_video_file (env_listdir E (now w))))
               (paths w)).
Proof.
  unfold list_video_files, bind, os_listdir. wsimpl.
  destruct (List.filter is_video_file (env_listdir E (List.length (io w)))) as [|f vf] eqn:Ef.
  - exists [MsgNoVideoFiles]. reflexivity.
  - unfold print at 1. wsimpl.
    destruct (file_rows_spec E (f :: vf) 1
                (mkWorld (stdin w) (console w ++ [MsgAvailableFiles])
                         (io w ++ [IoListdir "."]) (paths w))) as (rows & ->).
    wsimpl. unfold print, ret. wsimpl.
    exists [MsgAvailableFiles; MsgFilesPanel rows].
    rewrite <- !app_assoc. reflexivity.
Qed.

Lemma get_video_info_spec E file w :
  exists msgs,
    get_video_info E file w
    = (Ok (env_probe E (now w) file),
       mkWorld (stdin w) (console w ++ msgs) (io w ++ [IoProbe file]) (paths w)).
Proof.
  unfold get_video_info, bind, ffmpeg_probe. wsimpl.
  destruct (env_probe E (List.length (io w)) file).
  - exists []. unfold ret. rewrite app_nil_r. reflexivity.
  - exists [MsgProbeError]. reflexivity.
Qed.

(** ** The split flow *)

Lemma mem_cons_same p l : mem p (p :: l) = true.
Proof. unfold mem. simpl. rewrite String.eqb_refl. reflexivity. Qed.

Lemma split_segment_duration_spec E choice w :
  exists r keys msgs,
    split_segment_duration E choice w
    = (r, mkWorld keys (console w ++ msgs) (io w) (paths w)).
Proof.
  unfold split_segment_duration.
  destruct (lookup choice duration_map) as [d|].
  - exists (Ok (Some (PyInt d))), (stdin w), []. unfold ret.
    rewrite app_nil_r. destruct w; reflexivity.
  - destruct (String.eqb choice "5").
    + unfold bind, prompt_ask.
      destruct (ask_spec "Enter duration in seconds"
                  (fun s : string => @inl string message (PyStr.strip s)) w)
        as (r & keys & msgs & ->).
      destruct r as [s|e]; [|eauto].
      unfold lift. destruct (float_of_str E s); unfold ret; eauto.
    + unfold bind, print, ret. wsimpl. eauto.
Qed.

Lemma split_run_spec E info input seg w :
  exists eng,
    io (snd (split_run E info input seg w))
    = (io w ++ IoExists "segments"
            :: (if mem "segments" (paths w) then [] else [IoMakedirs "segments"])
            ++ eng)%list /\
    (eng = [] \/
     eng = [IoSegment input ("segments/" ++ fst (PyStr.splitext input) ++ "_segment") seg]) /\
    mem "segments" (paths (snd (split_run E info input seg w))) = true.
Proof.
  unfold split_run. mred.
  destruct (mem "segments" (paths w)) eqn:Hm; mred;
    (destruct (expected_segments (info_duration info) seg) as [n|e]; mred;
     [ destruct (env_segment E _ input _ seg); mred;
       eexists; (split; [rewrite <- ?app_assoc; reflexivity|]);
       (split; [right; reflexivity | first [exact Hm | apply mem_cons_same]])
     | exists []; (split; [rewrite <- ?app_assoc; reflexivity|]);
       (split; [left; reflexivity | first [exact Hm | apply mem_cons_same]]) ]).
Qed.

Lemma split_with_footprint E info input choice w files :
  In input files ->
  split_footprint files w (snd (split_with E info input choice w)).
Proof.
  intros Hin. unfold split_with, bind.
  destruct (split_segment_duration_spec E choice w) as (r & keys & msgs & ->).
  exists []. split; [reflexivity|].
  destruct r as [[seg|]|e].
  - right.
    destruct (split_run_spec E info input seg
                (mkWorld keys (console w ++ msgs) (io w) (paths w)))
      as (eng & Hio & Heng & Hp).
    wsimpl. exists input, seg, eng. repeat split; assumption.
  - left. split; [wsimpl; rewrite app_nil_r; reflexivity | reflexivity].
  - left. split; [wsimpl; rewrite app_nil_r; reflexivity | reflexivity].
Qed.

Lemma py_index_in {A} (l : list A) i a : py_index l i = Ok a -> In a l.
Proof.
  unfold py_index. destruct (_ <? 0); [discriminate|].
  destruct (nth_error l _) eqn:E; [|discriminate].
  intros H; injection H as <-. eapply nth_error_In; eassumption.
Qed.

Lemma split_footprint_reads files w w1 w' ops :
  forallb is_read ops = true ->
  io w1 = (io w ++ ops)%list -> paths w1 = paths w ->
  split_footprint files w1 w' -> split_footprint files w w'.
Proof.
  intros Hops Hio Hp (reads & Hr & H).
  exists (ops ++ reads)%list. split.
  - rewrite forallb_app, Hops, Hr. reflexivity.
  - destruct H as [[H1 H2] | (input & seg & eng & Hin & H1 & H2 & H3)].
    + left. rewrite H1, H2, Hio, Hp, app_assoc. split; reflexivity.
    + right. exists input, seg, eng. rewrite H1, Hio, Hp, <- !app_assoc.
      repeat split; assumption.
Qed.

Lemma split_footprint_refl files w w' :
  io w' = io w -> paths w' = paths w -> split_footprint files w w'.
Proof.
  intros H1 H2. exists []. split; [reflexivity|]. left.
  rewrite H1, H2, app_nil_r. split; reflexivity.
Qed.

Lemma split_body_footprint E files w :
  split_footprint files w (snd (split_body E files w)).
Proof.
  unfold split_body, bind, int_prompt_choices.
  match goal with |- context [ask ?t ?v w] =>
    destruct (ask_spec t v w) as (r & keys & msgs & ->) end.
  destruct r as [n|e]; [|apply split_footprint_refl; reflexivity].
  unfold lift at 1.
  destruct (py_index files (n - 1)) as [input|e] eqn:Hidx;
    [|apply split_footprint_refl; reflexivity].
  apply py_index_in in Hidx.
  unfold print at 1. wsimpl.
  match goal with |- context [get_video_info E input ?w1] =>
    destruct (get_video_info_spec E input w1) as (msgs1 & ->) end.
  wsimpl.
  destruct (env_probe E (List.length (io w)) input) as [info|].
  - unfold print at 1 2. wsimpl. unfold prompt_choices.
    match goal with |- context [ask ?t ?v ?w1] =>
      destruct (ask_spec t v w1) as (r & keys2 & msgs2 & ->) end.
    wsimpl.
    destruct r as [choice|e].
    + match goal with |- split_footprint _ _ (snd (split_with _ _ _ _ ?w1)) =>
        apply (split_footprint_reads files w w1 _ [IoProbe input]);
          [reflexivity | reflexivity | reflexivity
           | apply split_with_footprint; exact Hidx]
      end.
    + exists [IoProbe input]. split; [reflexivity|]. left. split; reflexivity.
  - exists [IoProbe input]. split; [reflexivity|]. left. split; reflexivity.
Qed.

(** The handlers that end a flow only print. *)
Lemma flow_handler_frame (m : M unit) w :
  io (snd (try_except m flow_handler w)) = io (snd (m w)) /\
  paths (snd (try_except m flow_handler w)) = paths (snd (m w)).
Proof.
  unfold try_except. destruct (m w) as [[a|e] w1]; [split; reflexivity|].
  destruct e; simpl; split; reflexivity.
Qed.

Lemma split_footprint_frame files w w1 w2 :
  io w2 = io w1 -> paths w2 = paths w1 ->
  split_footprint files w w1 -> split_footprint files w w2.
Proof.
  intros H1 H2 (reads & Hr & H). exists reads. split; [exact Hr|].
  rewrite H1, H2. exact H.
Qed.

Lemma split_video_footprint E w :
  split_footprint (List.filter is_video_file (env_listdir E (now w))) w
                  (snd (split_video E w)).
Proof.
  unfold split_video, bind. unfold print at 1. wsimpl.
  match goal with |- context [list_video_files E ?w1] =>
    destruct (list_video_files_spec E w1) as (msgs & ->) end.
  wsimpl.
  set (files := List.filter is_video_file (env_listdir E (List.length (io w)))).
  assert (Hreads : forallb is_read (IoListdir "." :: map IoGetsize files) = true).
  { simpl. apply forallb_forall. intros op Hop.
    apply in_map_iff in Hop as (x & <- & _). reflexivity. }
  destruct files as [|f files'] eqn:Ef.
  - exists [IoListdir "."]. split; [reflexivity|]. left. split; reflexivity.
  - rewrite <- Ef in *.
    match goal with |- context [try_except ?m flow_handler ?w1] =>
      destruct (flow_handler_frame m w1) as [Hio Hp];
      apply (split_footprint_reads files w w1 _ (IoListdir "." :: map IoGetsize files));
        [ exact Hreads | reflexivity | reflexivity
          | eapply split_footprint_frame; [exact Hio | exact Hp | apply split_body_footprint] ]
    end.
Qed.

Lemma new_io_app w w' ops : io w' = (io w ++ ops)%list -> new_io w w' = ops.
Proof.
  intros H. unfold new_io. rewrite H.
  rewrite skipn_app, skipn_all, Nat.sub_diag. reflexivity.
Qed.

Lemma substring_whole s : substring 0 (String.length s) s = s.
Proof. induction s; simpl; congruence. Qed.

Lemma substring_split s : forall n,
  (n <= String.length s)%nat ->
  substring 0 n s ++ substring n (String.length s - n) s = s.
Proof.
  induction s as [|c s IH]; intros n Hn.
  - destruct n; reflexivity.
  - destruct n as [|n].
    + simpl. rewrite substring_whole. reflexivity.
    + simpl in *. rewrite IH by lia. reflexivity.
Qed.

Lemma rfind_lt c s i : PyStr.rfind c s = Some i -> (i < String.length s)%nat.
Proof.
  revert i. induction s as [|d s IH]; intros i; simpl; [discriminate|].
  destruct (PyStr.rfind c s) as [j|].
  - intros H; injection H as <-. specialize (IH j eq_refl). lia.
  - destruct (Ascii.eqb d c); [|discriminate]. intros H; injection H as <-. lia.
Qed.

(** [splitext] cuts the name in two: stem, then extension. *)
Lemma splitext_join p :
  fst (PyStr.splitext p) ++ snd (PyStr.splitext p) = p.
Proof.
  assert (Hnil : forall s, s ++ EmptyString = s) by (induction s; simpl; congruence).
  unfold PyStr.splitext.
  destruct (PyStr.rfind "."%char p) as [i|] eqn:Ei; [|apply Hnil].
  destruct (_ && _); [|apply Hnil].
  simpl. apply substring_split. apply rfind_lt in Ei. lia.
Qed.

Lemma not_read_in_reads op reads :
  forallb is_read reads = true -> is_read op = false -> ~ In op reads.
Proof.
  intros Hr Hop Hin. rewrite forallb_forall in Hr. rewrite (Hr _ Hin) in Hop. discriminate.
Qed.

(** C3: every call of the segment engine made by the split flow gets the
    output prefix [segments/{stem}_segment], where [stem] is the chosen
    input file name without its extension ([os.path.splitext]); the file
    is one of the listed video files; [segments] exists under the current
    directory when the flow ends, and was created by the flow when it was
    absent at the start. *)
Theorem split_writes_under_segments :
  forall E w input prefix seg,
    In (IoSegment input prefix seg) (new_io w (snd (split_video E w))) ->
    prefix = "segments/" ++ fst (PyStr.splitext input) ++ "_segment" /\
    fst (PyStr.splitext input) ++ snd (PyStr.splitext input) = input /\
    In input (env_listdir E (now w)) /\ is_video_file input = true /\
    mem "segments" (paths (snd (split_video E w))) = true /\
    (mem "segments" (paths w) = false ->
     In (IoMakedirs "segments") (new_io w (snd (split_video E w)))).
Proof.
  intros E w input prefix seg Hin.
  destruct (split_video_footprint E w) as (reads & Hr & H).
  destruct H as [[Hio _] | (input' & seg' & eng & Hfile & Hio & Heng & Hp)].
  - rewrite (new_io_app _ _ _ Hio) in Hin.
    exfalso. exact (not_read_in_reads (IoSegment input prefix seg) reads Hr eq_refl Hin).
  - rewrite (new_io_app _ _ _ Hio) in *.
    apply in_app_or in Hin as [Hin | Hin];
      [exfalso; exact (not_read_in_reads (IoSegment input prefix seg) reads Hr eq_refl Hin)|].
    destruct Hin as [Hin | Hin]; [discriminate Hin|].
    apply in_app_or in Hin as [Hin | Hin].
    { destruct (mem "segments" (paths w)); [destruct Hin|].
      destruct Hin as [Hin | []]; discriminate Hin. }
    destruct Heng as [-> | ->]; [destruct Hin|].
    destruct Hin as [Hin | []]. injection Hin as <- <- <-.
    apply filter_In in Hfile as [Hl Hv].
    repeat split; try assumption; try reflexivity.
    + apply splitext_join.
    + intros Habs. rewrite Habs. apply in_or_app. right. right. left. reflexivity.
Qed.

Lemma split_writes_under_segments_witness :
  "segments/a_segment" = "segments/" ++ fst (PyStr.splitext "a.mp4") ++ "_segment" /\
  fst (PyStr.splitext "a.mp4") ++ snd (PyStr.splitext "a.mp4") = "a.mp4" /\
  In "a.mp4" (env_listdir (studio true) (now (start [Line "1"; Line "3"]))) /\
  is_video_file "a.mp4" = true /\
  mem "segments"
      (paths (snd (split_video (studio true) (start [Line "1"; Line "3"])))) = true /\
  (mem "segments" (paths (start [Line "1"; Line "3"])) = false ->
   In (IoMakedirs "segments")
      (new_io (start [Line "1"; Line "3"])
              (snd (split_video (studio true) (start [Line "1"; Line "3"]))))).
Proof.
  apply (split_writes_under_segments (studio true) (start [Line "1"; Line "3"])
           "a.mp4" "segments/a_segment" (PyInt 60)).
  vm_compute. tauto.
Defined.

(** C9: in the split flow [segments] is created before the engine is
    called: when it was absent at the start, the engine call is the last
    operation of the flow and the creation of [segments] comes right
    before it, after nothing but reads.  The directory is there when the
    flow ends, whatever the engine answers, a failure included: nothing
    removes it. *)
Theorem split_creates_directory_before_engine :
  forall E w input prefix seg,
    mem "segments" (paths w) = false ->
    In (IoSegment input prefix seg) (new_io w (snd (split_video E w))) ->
    (exists reads,
        forallb is_read reads = true /\
        new_io w (snd (split_video E w))
        = (reads ++ [IoMakedirs "segments"; IoSegment input prefix seg])%list) /\
    mem "segments" (paths (snd (split_video E w))) = true /\
    paths (snd (split_video E w)) <> paths w.
Proof.
  intros E w input prefix seg Habs Hin.
  destruct (split_video_footprint E w) as (reads & Hr & H).
  destruct H as [[Hio _] | (input' & seg' & eng & Hfile & Hio & Heng & Hp)].
  - rewrite (new_io_app _ _ _ Hio) in Hin.
    exfalso. exact (not_read_in_reads (IoSegment input prefix seg) reads Hr eq_refl Hin).
  - rewrite (new_io_app _ _ _ Hio) in *. rewrite Habs in *.
    apply in_app_or in Hin as [Hin | Hin];
      [exfalso; exact (not_read_in_reads (IoSegment input prefix seg) reads Hr eq_refl Hin)|].
    destruct Hin as [Hin | [Hin | Hin]]; try discriminate Hin.
    destruct Heng as [-> | ->]; [destruct Hin|].
    destruct Hin as [Hin | []]. injection Hin as <- <- <-.
    split; [|split; [exact Hp|]].
    + exists (reads ++ [IoExists "segments"])%list. split.
      * rewrite forallb_app, Hr. reflexivity.
      * rewrite <- app_assoc. reflexivity.
    + intros Heq. rewrite Heq in Hp. congruence.
Qed.

Lemma split_creates_directory_before_engine_witness :
  (exists reads,
      forallb is_read reads = true /\
      new_io (start [Line "1"; Line "3"])
             (snd (split_video (studio false) (start [Line "1"; Line "3"])))
      = (reads ++ [IoMakedirs "segments";
                   IoSegment "a.mp4" "segments/a_segment" (PyInt 60)])%list) /\
  mem "segments"
      (paths (snd (split_video (studio false) (start [Line "1"; Line "3"])))) = true /\
  paths (snd (split_video (studio false) (start [Line "1"; Line "3"])))
  <> paths (start [Line "1"; Line "3"]).
Proof.
  apply (split_creates_directory_before_engine
           (studio false) (start [Line "1"; Line "3"])
           "a.mp4" "segments/a_segment" (PyInt 60)).
  - reflexivity.
  - vm_compute. tauto.
Defined.

(** ** File discovery *)

Lemma append_empty_r s : s ++ EmptyString = s.
Proof. induction s; simpl; congruence. Qed.

Lemma endswith_spec s suffix :
  PyStr.endswith s suffix = true <-> exists pre, s = pre ++ suffix.
Proof.
  split.
  - induction s as [|c s IH]; cbn [PyStr.endswith].
    + rewrite orb_false_r. intros H. apply String.eqb_eq in H. exists EmptyString. exact H.
    + intros H. apply orb_true_iff in H as [H | H].
      * apply String.eqb_eq in H. exists EmptyString. exact H.
      * destruct (IH H) as (pre & ->). exists (String c pre). reflexivity.
  - intros (pre & ->). induction pre as [|c pre IH].
    + change (EmptyString ++ suffix) with suffix.
      destruct suffix; cbn [PyStr.endswith]; rewrite String.eqb_refl; reflexivity.
    + change (String c pre ++ suffix) with (String c (pre ++ suffix)).
      cbn [PyStr.endswith]. rewrite IH. apply orb_true_r.
Qed.

Lemma lower_app a b : PyStr.lower (a ++ b) = PyStr.lower a ++ PyStr.lower b.
Proof. induction a; simpl; congruence. Qed.

Lemma lower_split pre : forall name ext,
  PyStr.lower name = pre ++ ext ->
  exists base suffix, name = base ++ suffix /\ PyStr.lower suffix = ext.
Proof.
  induction pre as [|c pre IH]; intros name ext H.
  - exists EmptyString, name. split; [reflexivity | exact H].
  - destruct name as [|d name]; [discriminate H|].
    simpl in H. injection H as _ H.
    destruct (IH name ext H) as (base & suffix & -> & Hl).
    exists (String d base), suffix. split; [reflexivity | exact Hl].
Qed.

(** The test of [list_video_files] is the case-insensitive extension test. *)
Lemma is_video_file_spec name :
  is_video_file name = true <-> has_video_extension name.
Proof.
  unfold is_video_file, has_video_extension. rewrite existsb_exists. split.
  - intros (ext & Hin & He). apply endswith_spec in He as (pre & He).
    destruct (lower_split pre name ext He) as (base & suffix & Hn & Hl).
    exists ext, base, suffix. auto.
  - intros (ext & base & suffix & Hin & -> & Hl).
    exists ext. split; [exact Hin|].
    apply endswith_spec. exists (PyStr.lower base). rewrite lower_app, Hl. reflexivity.
Qed.

(** C7: file discovery lists the current directory once, not its
    subdirectories, reads the size of each result and writes nothing; it
    returns, in the order of the enumeration, exactly the entries whose
    name ends, letter case apart, in one of [.mp4 .avi .mov .wmv .mkv
    .flv .m4v]; for a directory holding [a.mp4], [b.txt], [c.MOV] it
    returns [a.mp4] and [c.MOV]. *)
Theorem list_video_files_discovers :
  forall E w,
    let entries := env_listdir E (now w) in
    let found := List.filter is_video_file entries in
    fst (list_video_files E w) = Ok found /\
    (forall name, In name found <-> In name entries /\ has_video_extension name) /\
    new_io w (snd (list_video_files E w)) = IoListdir "." :: map IoGetsize found /\
    forallb is_read (new_io w (snd (list_video_files E w))) = true /\
    paths (snd (list_video_files E w)) = paths w /\
    stdin (snd (list_video_files E w)) = stdin w /\
    List.filter is_video_file ["a.mp4"; "b.txt"; "c.MOV"] = ["a.mp4"; "c.MOV"].
Proof.
  intros E w entries found.
  destruct (list_video_files_spec E w) as (msgs & Hrun).
  fold entries in Hrun. fold found in Hrun. rewrite Hrun. cbn [fst snd].
  assert (Hio : new_io w (mkWorld (stdin w) (console w ++ msgs)
                                 (io w ++ IoListdir "." :: map IoGetsize found) (paths w))
                = IoListdir "." :: map IoGetsize found)
    by (apply new_io_app; reflexivity).
  rewrite Hio.
  split; [reflexivity|]. split; [|split; [reflexivity|split; [|split; [reflexivity|split; [reflexivity|]]]]].
  - intros name. unfold found. rewrite filter_In, is_video_file_spec. tauto.
  - simpl. apply forallb_forall. intros op Hop.
    apply in_map_iff in Hop as (x & <- & _). reflexivity.
  - reflexivity.
Qed.

(** ** The crop filter *)

Lemma strip_prefix_app pre rest : strip_prefix pre (pre ++ rest) = Some rest.
Proof. induction pre as [|c pre IH]; simpl; [|rewrite Ascii.eqb_refl]; auto. Qed.

Lemma length_append a b :
  String.length (a ++ b) = (String.length a + String.length b)%nat.
Proof. induction a; simpl; congruence. Qed.

Lemma strip_suffix_app suf n : strip_suffix suf (n ++ suf) = Some n.
Proof.
  induction n as [|c n IH].
  - destruct suf; simpl; rewrite ?Ascii.eqb_refl, ?String.eqb_refl; reflexivity.
  - change (String c n ++ suf) with (String c (n ++ suf)).
    unfold strip_suffix; fold strip_suffix.
    destruct (String.eqb (String c (n ++ suf)) suf) eqn:He.
    + apply String.eqb_eq in He. apply (f_equal String.length) in He.
      simpl in He. rewrite length_append in He. lia.
    + rewrite IH. reflexivity.
Qed.

Lemma to_int_roundtrip z :
  NilZero.int_of_string (PyStr.str_of_int z) = Some (Z.to_int z).
Proof.
  unfold PyStr.str_of_int. apply NilZero.isi.
  - intros H. pose proof (Z2Z_of_to := DecimalZ.of_to z). rewrite H in Z2Z_of_to.
    simpl in Z2Z_of_to. subst z. discriminate H.
  - intros H. pose proof (Z2Z_of_to := DecimalZ.of_to z). rewrite H in Z2Z_of_to.
    simpl in Z2Z_of_to. subst z. discriminate H.
Qed.

Lemma centered_offset_value v extent n :
  centered_offset v extent ("(" ++ v ++ "-" ++ PyStr.str_of_int n ++ ")/2")
  = Some ((extent - n) # 2).
Proof.
  unfold centered_offset.
  replace ("(" ++ v ++ "-" ++ PyStr.str_of_int n ++ ")/2")
    with (("(" ++ v ++ "-") ++ PyStr.str_of_int n ++ ")/2").
  - rewrite strip_prefix_app, strip_suffix_app, to_int_roundtrip, DecimalZ.of_to.
    reflexivity.
  - simpl. f_equal. induction v; simpl; congruence.
Qed.

Lemma crop_run_io E input choice wd ht name w :
  exists rest,
    io (snd (crop_run E input choice wd ht name w))
    = (io w ++ IoTransform input (crop_filter wd ht)
                  (fst (PyStr.splitext input) ++ "_cropped_"
                       ++ clean_platform choice ++ snd (PyStr.splitext input))
            :: rest)%list.
Proof.
  unfold crop_run, show_new_file, get_video_info.
  destruct (PyStr.splitext input) as [nm ext]. mred.
  destruct (env_transform E _ input _ _); mred;
    [match goal with |- context [env_probe E ?k ?f] => destruct (env_probe E k f) end; mred|];
    eexists; rewrite <- ?app_assoc; reflexivity.
Qed.

(** C6: the crop filter the flow hands to the engine carries the offset
    expressions [(iw-W)/2] and [(ih-H)/2] for the crop box [W x H]; with
    [iw] and [ih] the source width and height they evaluate to
    [(source_width - W) / 2] and [(source_height - H) / 2], the centred
    offset; for a 1920x1080 source and a 1080x1080 box: 420 and 0. *)
Theorem crop_offset_centered :
  forall E input crop_choice crop_width crop_height platform_name w
         source_width source_height,
    exists x y rest,
      crop_filter crop_width crop_height = Crop crop_width crop_height x y /\
      new_io w (snd (crop_run E input crop_choice crop_width crop_height
                              platform_name w))
      = IoTransform input (Crop crop_width crop_height x y)
                    (fst (PyStr.splitext input) ++ "_cropped_"
                         ++ clean_platform crop_choice ++ snd (PyStr.splitext input))
        :: rest /\
      centered_offset "iw" source_width x = Some ((source_width - crop_width) # 2) /\
      centered_offset "ih" source_height y = Some ((source_height - crop_height) # 2) /\
      crop_filter 1080 1080 = Crop 1080 1080 "(iw-1080)/2" "(ih-1080)/2" /\
      centered_offset "iw" 1920 "(iw-1080)/2" = Some (840 # 2) /\
      centered_offset "ih" 1080 "(ih-1080)/2" = Some (0 # 2) /\
      (840 # 2 == 420)%Q /\ (0 # 2 == 0)%Q.
Proof.
  intros E input choice wd ht name w sw sh.
  destruct (crop_run_io E input choice wd ht name w) as (rest & Hio).
  exists ("(iw-" ++ PyStr.str_of_int wd ++ ")/2"),
         ("(ih-" ++ PyStr.str_of_int ht ++ ")/2"), rest.
  split; [reflexivity|]. split; [apply new_io_app; exact Hio|].
  split; [apply (centered_offset_value "iw")|].
  split; [apply (centered_offset_value "ih")|].
  repeat split; reflexivity.
Qed.

(** ** The crop box of a preset *)

Lemma preset_box_lookup c w h :
  preset_box c = Some (w, h) ->
  String.eqb c "6" = false /\
  exists ratio name,
    lookup c crop_options = Some (ratio, name) /\ parse_ratio ratio = Ok (w, h).
Proof.
  unfold preset_box. destruct (String.eqb c "6"); [discriminate|].
  destruct (lookup c crop_options) as [[ratio name]|]; [|discriminate].
  destruct (parse_ratio ratio) as [[a b]|] eqn:Hp; [|discriminate].
  intros H; injection H as <- <-. split; [reflexivity|]. eauto.
Qed.

(** C10: in the crop flow with a preset, when the second probe of the
    input fails the flow goes on: no scaling takes place, no exception is
    raised, the probe's own error line is the only output of the step, and
    the engine is called with the preset's width and height as they are. *)
Theorem crop_preset_survives_failed_probe :
  forall E input crop_choice preset_width preset_height w,
    preset_box crop_choice = Some (preset_width, preset_height) ->
    env_probe E (now w) input = None ->
    exists platform_name rest,
      crop_dimensions E input crop_choice w
      = (Ok (Some (preset_width, preset_height, platform_name)),
         mkWorld (stdin w) (console w ++ [MsgProbeError])
                 (io w ++ [IoProbe input]) (paths w)) /\
      new_io w (snd (crop_with E input crop_choice w))
      = IoProbe input
        :: IoTransform input (crop_filter preset_width preset_height)
             (fst (PyStr.splitext input) ++ "_cropped_"
                  ++ clean_platform crop_choice ++ snd (PyStr.splitext input))
        :: rest.
Proof.
  intros E input c pw ph w Hbox Hprobe.
  destruct (preset_box_lookup _ _ _ Hbox) as (H6 & ratio & name & Hl & Hp).
  assert (Hdims : crop_dimensions E input c w
                  = (Ok (Some (pw, ph, name)),
                     mkWorld (stdin w) (console w ++ [MsgProbeError])
                             (io w ++ [IoProbe input]) (paths w))).
  { unfold crop_dimensions, get_video_info. rewrite H6, Hl. mred. rewrite Hp.
    unfold now in Hprobe. rewrite Hprobe. reflexivity. }
  destruct (crop_run_io E input c pw ph name
              (mkWorld (stdin w) (console w ++ [MsgProbeError])
                       (io w ++ [IoProbe input]) (paths w))) as (rest & Hio).
  exists name, rest. split; [exact Hdims|].
  apply new_io_app. unfold crop_with, bind. rewrite Hdims.
  rewrite Hio. cbn [io]. rewrite <- app_assoc. reflexivity.
Qed.

Lemma crop_preset_survives_failed_probe_witness :
  exists platform_name rest,
    crop_dimensions (studio_probe_until 0) "a.mp4" "2" (start [])
    = (Ok (Some (1080, 1080, platform_name)),
       mkWorld (stdin (start [])) (console (start []) ++ [MsgProbeError])
               (io (start []) ++ [IoProbe "a.mp4"]) (paths (start []))) /\
    new_io (start []) (snd (crop_with (studio_probe_until 0) "a.mp4" "2" (start [])))
    = IoProbe "a.mp4"
      :: IoTransform "a.mp4" (crop_filter 1080 1080)
           (fst (PyStr.splitext "a.mp4") ++ "_cropped_"
                ++ clean_platform "2" ++ snd (PyStr.splitext "a.mp4"))
      :: rest.
Proof.
  apply (crop_preset_survives_failed_probe
           (studio_probe_until 0) "a.mp4" "2" 1080 1080 (start [])).
  - reflexivity.
  - reflexivity.
Defined.

(** ** The expected number of segments *)

(** C5 (the code departs from the claim): for a clip of 1.0 second and
    the segment duration 0.1 the flow announces 11 segments, although
    [ceil(1.0 / 0.1)] is 10, with the floats' exact values as well as
    with the rounded quotient, which is exactly 10.0; the remainder
    [1.0 % 0.1] is positive, because 0.1 as a float is slightly more than
    a tenth, so one is added to a quotient that was already rounded up.
    For 125 seconds and 60 seconds the count is 3, as claimed. *)
Theorem expected_segments_overcounts :
  tenth = div (of_int 1) (of_int 10) /\
  expected_segments (of_int 1) (PyFloat tenth) = Ok 11 /\
  div (of_int 1) tenth = of_int 10 /\
  (exists total segment,
      float_value (of_int 1) = Some total /\
      float_value tenth = Some segment /\
      Qceiling (total / segment) = 10) /\
  In (MsgSplitting 11 (PyFloat tenth))
     (console (snd (split_video short_clip
                                (start [Line "1"; Line "5"; Line "0.1"])))) /\
  expected_segments (of_int 125) (PyInt 60) = Ok 3.
Proof.
  split; [vm_compute; reflexivity|].
  split; [vm_compute; reflexivity|].
  split; [vm_compute; reflexivity|].
  split.
  - eexists; eexists. split; [reflexivity|]. split; [reflexivity|]. vm_compute. reflexivity.
  - split; [vm_compute; tauto | vm_compute; reflexivity].
Qed.

(** ** Crop boxes against the source *)

Lemma scale_to_fit_fits w h iw ih :
  check_preset (w, h) = true ->
  0 <= iw < 2 ^ 53 -> 0 <= ih < 2 ^ 53 ->
  exists scaled w' h',
    scale_to_fit w h iw ih = Ok (scaled, (w', h')) /\ w' <= iw /\ h' <= ih.
Proof.
  intros Hck Hiw Hih.
  destruct (Z_lt_le_dec iw w) as [Hw | Hw].
  - destruct (scale_to_fit_checked w h iw ih Hck Hiw Hih ltac:(lia))
      as (w' & h' & E & _ & B1 & B2 & _).
    exists true, w', h'. auto.
  - destruct (Z_lt_le_dec ih h) as [Hh | Hh].
    + destruct (scale_to_fit_checked w h iw ih Hck Hiw Hih ltac:(lia))
        as (w' & h' & E & _ & B1 & B2 & _).
      exists true, w', h'. auto.
    + exists false, w, h. unfold scale_to_fit.
      replace (w >? iw) with false by (symmetry; rewrite Z.gtb_ltb; apply Z.ltb_ge; lia).
      replace (h >? ih) with false by (symmetry; rewrite Z.gtb_ltb; apply Z.ltb_ge; lia).
      simpl. repeat split; lia.
Qed.

(** C2, counterexample: a custom crop of 5000x5000 on a 1920x1080 source
    reaches the engine as typed. *)
Lemma custom_crop_exceeds_source :
  ~ crop_within_source (studio true)
      (start [Line "1"; Line "6"; Line "5000"; Line "5000"]).
Proof.
  intros H.
  specialize (H hd_source (fun _ _ => eq_refl)
                "a.mp4" 5000 5000 "(iw-5000)/2" "(ih-5000)/2" "a_cropped_custom.mp4").
  assert (Hin : In (IoTransform "a.mp4" (Crop 5000 5000 "(iw-5000)/2" "(ih-5000)/2")
                                "a_cropped_custom.mp4")
                   (new_io (start [Line "1"; Line "6"; Line "5000"; Line "5000"])
                           (snd (crop_video (studio true)
                                   (start [Line "1"; Line "6"; Line "5000"; Line "5000"])))))
    by (vm_compute; tauto).
  specialize (H Hin). simpl in H. lia.
Qed.

(** C2, as amended: for a preset whose second probe of the input succeeds,
    with source sides below [2^53], the width and height worked out by the
    flow and handed to the engine do not exceed the source width and
    height.  A custom box is handed over as typed. *)
Theorem preset_crop_within_source :
  forall E input crop_choice preset_width preset_height vi w,
    preset_box crop_choice = Some (preset_width, preset_height) ->
    env_probe E (now w) input = Some vi ->
    0 <= info_width vi < 2 ^ 53 -> 0 <= info_height vi < 2 ^ 53 ->
    (exists crop_width crop_height platform_name msgs rest,
        crop_dimensions E input crop_choice w
        = (Ok (Some (crop_width, crop_height, platform_name)),
           mkWorld (stdin w) (console w ++ msgs) (io w ++ [IoProbe input]) (paths w)) /\
        new_io w (snd (crop_with E input crop_choice w))
        = IoProbe input
          :: IoTransform input (crop_filter crop_width crop_height)
               (fst (PyStr.splitext input) ++ "_cropped_"
                    ++ clean_platform crop_choice ++ snd (PyStr.splitext input))
          :: rest /\
        crop_width <= info_width vi /\ crop_height <= info_height vi) /\
    (forall typed_width typed_height a b keys,
        stdin w = Line typed_width :: Line typed_height :: keys ->
        py_int (PyStr.strip typed_width) = Ok a ->
        py_int (PyStr.strip typed_height) = Ok b ->
        fst (crop_dimensions E input "6" w) = Ok (Some (a, b, "Custom")) /\
        io (snd (crop_dimensions E input "6" w)) = io w).
Proof.
  intros E input c pw ph vi w Hbox Hprobe Hw Hh. split.
  - destruct (preset_box_lookup _ _ _ Hbox) as (H6 & ratio & name & Hl & Hp).
    destruct (scale_to_fit_fits pw ph (info_width vi) (info_height vi)
                (preset_box_checked _ _ _ Hbox) Hw Hh)
      as (scaled & cw & ch & Hfit & B1 & B2).
    assert (Hdims : exists msgs,
               crop_dimensions E input c w
               = (Ok (Some (cw, ch, name)),
                  mkWorld (stdin w) (console w ++ msgs) (io w ++ [IoProbe input]) (paths w))).
    { unfold crop_dimensions, get_video_info. rewrite H6, Hl. mred. rewrite Hp.
      unfold now in Hprobe. rewrite Hprobe. mred. rewrite Hfit.
      destruct scaled; mred.
      - exists [MsgScaledDown cw ch]. reflexivity.
      - exists []. rewrite app_nil_r. reflexivity. }
    destruct Hdims as (msgs & Hdims).
    destruct (crop_run_io E input c cw ch name
                (mkWorld (stdin w) (console w ++ msgs)
                         (io w ++ [IoProbe input]) (paths w))) as (rest & Hio).
    exists cw, ch, name, msgs, rest. split; [exact Hdims|]. split; [|split; assumption].
    apply new_io_app. unfold crop_with, bind. rewrite Hdims.
    rewrite Hio. cbn [io]. rewrite <- app_assoc. reflexivity.
  - intros tw th a b keys Hin Ha Hb.
    unfold crop_dimensions. rewrite String.eqb_refl.
    unfold prompt_ask. mred.
    rewrite (ask_valid _ _ w tw (Line th :: keys) (PyStr.strip tw) Hin eq_refl).
    rewrite Ha.
    erewrite ask_valid; [| cbn [stdin]; reflexivity | reflexivity].
    rewrite Hb. split; reflexivity.
Qed.

Lemma preset_crop_within_source_witness :
  (exists crop_width crop_height platform_name msgs rest,
      crop_dimensions (studio true) "a.mp4" "1" (start [Line "7"; Line "8"])
      = (Ok (Some (crop_width, crop_height, platform_name)),
         mkWorld (stdin (start [Line "7"; Line "8"]))
                 (console (start [Line "7"; Line "8"]) ++ msgs)
                 (io (start [Line "7"; Line "8"]) ++ [IoProbe "a.mp4"])
                 (paths (start [Line "7"; Line "8"]))) /\
      new_io (start [Line "7"; Line "8"])
             (snd (crop_with (studio true) "a.mp4" "1" (start [Line "7"; Line "8"])))
      = IoProbe "a.mp4"
        :: IoTransform "a.mp4" (crop_filter crop_width crop_height)
             (fst (PyStr.splitext "a.mp4") ++ "_cropped_"
                  ++ clean_platform "1" ++ snd (PyStr.splitext "a.mp4"))
        :: rest /\
      crop_width <= info_width hd_source /\ crop_height <= info_height hd_source) /\
  fst (crop_dimensions (studio true) "a.mp4" "6" (start [Line "7"; Line "8"]))
  = Ok (Some (7, 8, "Custom")) /\
  io (snd (crop_dimensions (studio true) "a.mp4" "6" (start [Line "7"; Line "8"])))
  = io (start [Line "7"; Line "8"]).
Proof.
  destruct (preset_crop_within_source (studio true) "a.mp4" "1" 1080 1920 hd_source
              (start [Line "7"; Line "8"]))
    as [Hpreset Hcustom].
  - reflexivity.
  - reflexivity.
  - simpl. lia.
  - simpl. lia.
  - split; [exact Hpreset|].
    apply (Hcustom "7" "8" 7 8 []); reflexivity.
Defined.

(** ** Invalid selections *)

Lemma prompt_choices_reprompts text choices bad :
  mem (PyStr.strip bad) choices = false ->
  reprompts (prompt_choices text choices) bad.
Proof.
  intros Hbad w rest Hin. exists [MsgPrompt text; MsgIllegalChoice].
  unfold prompt_choices. apply (ask_invalid _ _ w bad rest); [exact Hin|].
  cbv beta zeta. rewrite Hbad. reflexivity.
Qed.

Lemma int_prompt_choices_reprompts text choices bad :
  PyStr.int_of_str (PyStr.strip bad) = None \/ mem (PyStr.strip bad) choices = false ->
  reprompts (int_prompt_choices text choices) bad.
Proof.
  intros Hbad w rest Hin. unfold int_prompt_choices.
  destruct (PyStr.int_of_str (PyStr.strip bad)) as [z|] eqn:Hz.
  - destruct Hbad as [Hbad | Hbad]; [discriminate|].
    exists [MsgPrompt text; MsgIllegalChoice].
    apply (ask_invalid _ _ w bad rest); [exact Hin|].
    cbv beta zeta. rewrite Hz, Hbad. reflexivity.
  - exists [MsgPrompt text; MsgInvalidInteger].
    apply (ask_invalid _ _ w bad rest); [exact Hin|].
    cbv beta zeta. rewrite Hz. reflexivity.
Qed.

(** A flow that starts with a prompt asks again when the prompt does. *)
Lemma bind_reprompts {A B} (prompt : M A) (k : A -> M B) bad :
  reprompts prompt bad -> reprompts (bind prompt k) bad.
Proof.
  intros H w rest Hin. destruct (H w rest Hin) as (msgs & Heq).
  exists msgs. unfold bind. rewrite Heq. reflexivity.
Qed.

Lemma try_except_reprompts {A} (m : M A) handler bad :
  reprompts m bad -> reprompts (try_except m handler) bad.
Proof.
  intros H w rest Hin. destruct (H w rest Hin) as (msgs & Heq).
  exists msgs. unfold try_except. rewrite Heq. reflexivity.
Qed.

Lemma main_dispatch_reprompts E bad :
  mem (PyStr.strip bad) ["1"; "2"; "3"; "4"; "5"] = false ->
  reprompts (main_dispatch E) bad.
Proof.
  intros Hbad. unfold main_dispatch.
  apply try_except_reprompts, bind_reprompts, prompt_choices_reprompts. exact Hbad.
Qed.

Lemma resize_body_reprompts E files bad :
  PyStr.int_of_str (PyStr.strip bad) = None
  \/ mem (PyStr.strip bad) (choices_upto (List.length files)) = false ->
  reprompts (resize_body E files) bad.
Proof.
  intros Hbad. unfold resize_body.
  apply bind_reprompts, int_prompt_choices_reprompts. exact Hbad.
Qed.

Lemma split_body_reprompts E files bad :
  PyStr.int_of_str (PyStr.strip bad) = None
  \/ mem (PyStr.strip bad) (choices_upto (List.length files)) = false ->
  reprompts (split_body E files) bad.
Proof.
  intros Hbad. unfold split_body.
  apply bind_reprompts, int_prompt_choices_reprompts. exact Hbad.
Qed.

(** The guard of lines 347-349: an out-of-range number ends the crop
    flow. *)
Lemma crop_body_out_of_range E files w bad rest n :
  stdin w = Line bad :: rest ->
  PyStr.int_of_str (PyStr.strip bad) = Some n ->
  n < 1 \/ Z.of_nat (List.length files) < n ->
  crop_body E files w
  = (Ok tt, mkWorld rest
                    (console w ++ [MsgPrompt "Select video file"; MsgInvalidSelection])
                    (io w) (paths w)).
Proof.
  intros Hin Hn Hrange. unfold crop_body, prompt_ask. mred.
  rewrite (ask_valid _ _ w bad rest (PyStr.strip bad) Hin eq_refl).
  unfold py_int. rewrite Hn.
  replace ((n - 1 <? 0) || (n - 1 >=? Z.of_nat (List.length files))) with true.
  - mred. rewrite <- app_assoc. reflexivity.
  - symmetry. apply orb_true_iff. destruct Hrange; [left | right].
    + apply Z.ltb_lt. lia.
    + apply Z.geb_le. lia.
Qed.

(** C8, counterexample: at the file selection of the crop flow the number
    9, with two files listed, does not lead to a second prompt: the flow
    returns, whereas on the remaining (empty) input it would fail for
    lack of input. *)
Lemma crop_selection_does_not_reprompt :
  ~ reprompts (crop_body (studio true) ["a.mp4"; "c.MOV"]) "9".
Proof.
  intros H. destruct (H (start [Line "9"]) [] eq_refl) as (msgs & Heq).
  apply (f_equal fst) in Heq. vm_compute in Heq. discriminate Heq.
Qed.

(** C8, as amended: at every prompt that offers a list of choices (the
    main menu, the option menus, the file selection of the resize and
    split flows) an entry outside the list is answered by an error line
    and the same prompt again: the program goes on as if started there on
    the rest of the input, with no other change and no file operation;
    entering 9 at the main menu is such a case.  At the file selection of
    the crop flow a number outside the listed range is reported as an
    invalid selection and ends the flow, with no file operation. *)
Theorem invalid_selection_handling :
  forall E,
    (forall text choices bad,
        mem (PyStr.strip bad) choices = false ->
        reprompts (prompt_choices text choices) bad) /\
    (forall text choices bad,
        PyStr.int_of_str (PyStr.strip bad) = None
        \/ mem (PyStr.strip bad) choices = false ->
        reprompts (int_prompt_choices text choices) bad) /\
    (forall bad,
        mem (PyStr.strip bad) ["1"; "2"; "3"; "4"; "5"] = false ->
        reprompts (main_dispatch E) bad) /\
    reprompts (main_dispatch E) "9" /\
    (forall files bad,
        PyStr.int_of_str (PyStr.strip bad) = None
        \/ mem (PyStr.strip bad) (choices_upto (List.length files)) = false ->
        reprompts (resize_body E files) bad /\ reprompts (split_body E files) bad) /\
    (forall files w bad rest n,
        stdin w = Line bad :: rest ->
        PyStr.int_of_str (PyStr.strip bad) = Some n ->
        n < 1 \/ Z.of_nat (List.length files) < n ->
        crop_body E files w
        = (Ok tt, mkWorld rest
                          (console w ++ [MsgPrompt "Select video file";
                                         MsgInvalidSelection])
                          (io w) (paths w))).
Proof.
  intros E.
  split; [apply prompt_choices_reprompts|].
  split; [apply int_prompt_choices_reprompts|].
  split; [apply main_dispatch_reprompts|].
  split; [apply main_dispatch_reprompts; reflexivity|].
  split.
  - intros files bad Hbad. split.
    + apply resize_body_reprompts; exact Hbad.
    + apply split_body_reprompts; exact Hbad.
  - apply crop_body_out_of_range.
Qed.

Lemma invalid_selection_handling_witness :
  reprompts (prompt_choices "Select crop option" ["1"; "2"; "3"; "4"; "5"; "6"]) "7" /\
  reprompts (int_prompt_choices "Select video file" (choices_upto 2)) "x" /\
  reprompts (main_dispatch (studio true)) " 0 " /\
  reprompts (main_dispatch (studio true)) "9" /\
  (reprompts (resize_body (studio true) ["a.mp4"; "c.MOV"]) "3" /\
   reprompts (split_body (studio true) ["a.mp4"; "c.MOV"]) "3") /\
  crop_body (studio true) ["a.mp4"; "c.MOV"] (start [Line "9"; Line "1"])
  = (Ok tt, mkWorld [Line "1"]
                    (console (start [Line "9"; Line "1"])
                     ++ [MsgPrompt "Select video file"; MsgInvalidSelection])
                    (io (start [Line "9"; Line "1"]))
                    (paths (start [Line "9"; Line "1"]))).
Proof.
  destruct (invalid_selection_handling (studio true))
    as (H1 & H2 & H3 & H4 & H5 & H6).
  split; [apply H1; reflexivity|].
  split; [apply H2; left; reflexivity|].
  split; [apply H3; reflexivity|].
  split; [exact H4|].
  split; [apply H5; right; reflexivity|].
  apply (H6 ["a.mp4"; "c.MOV"] (start [Line "9"; Line "1"]) "9" [Line "1"] 9).
  - reflexivity.
  - reflexivity.
  - right. simpl. lia.
Defined.

(** ** Non-numeric input *)

Lemma handler_value_error (m : M unit) w w1 :
  m w = (Raise ValueError, w1) ->
  try_except m flow_handler w = (Ok tt, add_console [MsgValidNumber] w1).
Proof. intros H. unfold try_except. rewrite H. reflexivity. Qed.

Lemma rejected_number_intro w rest w2 reads :
  stdin w2 = rest -> io w2 = (io w ++ reads)%list ->
  forallb is_read reads = true -> paths w2 = paths w ->
  rejected_number w rest (Ok tt, add_console [MsgValidNumber] w2).
Proof.
  intros Hs Hio Hr Hp. unfold rejected_number. cbn [fst snd]. wsimpl.
  split; [reflexivity|]. split; [exact Hs|]. split; [apply last_last|].
  split; [|exact Hp].
  rewrite (new_io_app w _ reads); [exact Hr | exact Hio].
Qed.

Lemma listing_reads files :
  forallb is_read (IoListdir "." :: map IoGetsize files) = true.
Proof.
  simpl. apply forallb_forall. intros op Hop.
  apply in_map_iff in Hop as (x & <- & _). reflexivity.
Qed.

Lemma listing_probe_reads files input :
  forallb is_read ((IoListdir "." :: map IoGetsize files) ++ [IoProbe input]) = true.
Proof. rewrite forallb_app, listing_reads. reflexivity. Qed.

(** The start of the crop and split flows on a directory with videos. *)
Lemma crop_video_start E w :
  List.filter is_video_file (env_listdir E (now w)) <> [] ->
  exists msgs,
    crop_video E w
    = try_except (crop_body E (List.filter is_video_file (env_listdir E (now w))))
                 flow_handler
                 (mkWorld (stdin w) (console w ++ msgs)
                          (io w ++ IoListdir "." :: map IoGetsize
                                (List.filter is_video_file (env_listdir E (now w))))
                          (paths w)).
Proof.
  intros Hne. unfold crop_video, bind. unfold print at 1. wsimpl.
  match goal with |- context [list_video_files E ?w1] =>
    destruct (list_video_files_spec E w1) as (msgs & ->) end.
  wsimpl.
  destruct (List.filter is_video_file (env_listdir E (List.length (io w)))) as [|f fs];
    [congruence|].
  eexists. rewrite <- app_assoc. reflexivity.
Qed.

Lemma split_video_start E w :
  List.filter is_video_file (env_listdir E (now w)) <> [] ->
  exists msgs,
    split_video E w
    = try_except (split_body E (List.filter is_video_file (env_listdir E (now w))))
                 flow_handler
                 (mkWorld (stdin w) (console w ++ msgs)
                          (io w ++ IoListdir "." :: map IoGetsize
                                (List.filter is_video_file (env_listdir E (now w))))
                          (paths w)).
Proof.
  intros Hne. unfold split_video, bind. unfold print at 1. wsimpl.
  match goal with |- context [list_video_files E ?w1] =>
    destruct (list_video_files_spec E w1) as (msgs & ->) end.
  wsimpl.
  destruct (List.filter is_video_file (env_listdir E (List.length (io w)))) as [|f fs];
    [congruence|].
  eexists. rewrite <- app_assoc. reflexivity.
Qed.

Lemma py_index_nth {A} (l : list A) n a :
  1 <= n -> nth_error l (Z.to_nat (n - 1)) = Some a -> py_index l (n - 1) = Ok a.
Proof.
  intros Hn Hnth. unfold py_index.
  assert (H : (n - 1 <? 0) = false) by (apply Z.ltb_ge; lia).
  cbv zeta. rewrite H, H, Hnth. reflexivity.
Qed.

(** The crop flow up to its option menu. *)
Lemma crop_body_to_menu E files w sel keys n input info :
  stdin w = Line sel :: keys ->
  PyStr.int_of_str (PyStr.strip sel) = Some n ->
  1 <= n <= Z.of_nat (List.length files) ->
  nth_error files (Z.to_nat (n - 1)) = Some input ->
  env_probe E (now w) input = Some info ->
  exists msgs,
    crop_body E files w
    = bind (prompt_choices "Select crop option" ["1"; "2"; "3"; "4"; "5"; "6"])
           (crop_with E input)
           (mkWorld keys (console w ++ msgs) (io w ++ [IoProbe input]) (paths w)).
Proof.
  intros Hin Hn Hrange Hnth Hprobe.
  unfold crop_body, prompt_ask, get_video_info. mred.
  rewrite (ask_valid _ _ w sel keys (PyStr.strip sel) Hin eq_refl).
  unfold py_int. rewrite Hn. mred.
  replace ((n - 1 <? 0) || (n - 1 >=? Z.of_nat (List.length files))) with false.
  - rewrite (py_index_nth files n input ltac:(lia) Hnth). mred.
    unfold now in Hprobe. rewrite Hprobe. mred.
    eexists. rewrite <- !app_assoc. reflexivity.
  - symmetry. apply orb_false_iff. split.
    + apply Z.ltb_ge. lia.
    + rewrite Z.geb_leb. apply Z.leb_gt. lia.
Qed.

(** The split flow up to its option menu. *)
Lemma split_body_to_menu E files w sel keys n input info :
  stdin w = Line sel :: keys ->
  PyStr.int_of_str (PyStr.strip sel) = Some n ->
  mem (PyStr.strip sel) (choices_upto (List.length files)) = true ->
  1 <= n ->
  nth_error files (Z.to_nat (n - 1)) = Some input ->
  env_probe E (now w) input = Some info ->
  exists msgs,
    split_body E files w
    = bind (prompt_choices "Select split option" ["1"; "2"; "3"; "4"; "5"])
           (split_with E info input)
           (mkWorld keys (console w ++ msgs) (io w ++ [IoProbe input]) (paths w)).
Proof.
  intros Hin Hn Hmem Hpos Hnth Hprobe.
  unfold split_body, int_prompt_choices, get_video_info. mred.
  rewrite (ask_valid _ _ w sel keys n Hin);
    [| cbv beta zeta; rewrite Hn, Hmem; reflexivity].
  mred. rewrite (py_index_nth files n input Hpos Hnth). mred.
  unfold now in Hprobe. rewrite Hprobe. mred.
  eexists. rewrite <- !app_assoc. reflexivity.
Qed.

Lemma now_after_listing (w : World) (files : list string) msgs :
  now (mkWorld (stdin w) msgs
               (io w ++ IoListdir "." :: map IoGetsize files) (paths w))
  = (now w + 1 + List.length files)%nat.
Proof.
  unfold now. cbn [io]. rewrite length_app. simpl. rewrite length_map. lia.
Qed.

Lemma crop_body_bad_selection E files w bad rest :
  stdin w = Line bad :: rest ->
  PyStr.int_of_str (PyStr.strip bad) = None ->
  crop_body E files w
  = (Raise ValueError,
     mkWorld rest (console w ++ [MsgPrompt "Select video file"]) (io w) (paths w)).
Proof.
  intros Hin Hbad. unfold crop_body, prompt_ask. mred.
  rewrite (ask_valid _ _ w bad rest (PyStr.strip bad) Hin eq_refl).
  unfold py_int. rewrite Hbad. reflexivity.
Qed.

Lemma crop_with_bad_width E input w bad rest :
  stdin w = Line bad :: rest ->
  PyStr.int_of_str (PyStr.strip bad) = None ->
  crop_with E input "6" w
  = (Raise ValueError,
     mkWorld rest (console w ++ [MsgPrompt "Enter crop width"]) (io w) (paths w)).
Proof.
  intros Hin Hbad. unfold crop_with, crop_dimensions, prompt_ask.
  rewrite String.eqb_refl. mred.
  rewrite (ask_valid _ _ w bad rest (PyStr.strip bad) Hin eq_refl).
  unfold py_int. rewrite Hbad. reflexivity.
Qed.

Lemma crop_with_bad_height E input w typed a bad rest :
  stdin w = Line typed :: Line bad :: rest ->
  PyStr.int_of_str (PyStr.strip typed) = Some a ->
  PyStr.int_of_str (PyStr.strip bad) = None ->
  crop_with E input "6" w
  = (Raise ValueError,
     mkWorld rest
             (console w ++ [MsgPrompt "Enter crop width"; MsgPrompt "Enter crop height"])
             (io w) (paths w)).
Proof.
  intros Hin Ha Hbad. unfold crop_with, crop_dimensions, prompt_ask.
  rewrite String.eqb_refl. mred.
  rewrite (ask_valid _ _ w typed (Line bad :: rest) (PyStr.strip typed) Hin eq_refl).
  unfold py_int. rewrite Ha. mred.
  erewrite ask_valid; [| cbn [stdin]; reflexivity | reflexivity].
  rewrite Hbad. cbn [console io paths]. rewrite <- app_assoc. reflexivity.
Qed.

Lemma split_with_bad_duration E info input w bad rest :
  stdin w = Line bad :: rest ->
  py_float E (PyStr.strip bad) = None ->
  split_with E info input "5" w
  = (Raise ValueError,
     mkWorld rest (console w ++ [MsgPrompt "Enter duration in seconds"])
             (io w) (paths w)).
Proof.
  intros Hin Hbad.
  unfold split_with, split_segment_duration, prompt_ask, float_of_str.
  cbn [lookup duration_map String.eqb Ascii.eqb Bool.eqb]. mred.
  rewrite (ask_valid _ _ w bad rest (PyStr.strip bad) Hin eq_refl).
  rewrite Hbad. reflexivity.
Qed.

Lemma chosen_nonempty E w n input info :
  chosen E w n input info ->
  List.filter is_video_file (env_listdir E (now w)) <> [].
Proof.
  intros (Hrange & _ & _) Hnil. rewrite Hnil in Hrange. simpl in Hrange. lia.
Qed.

(** C4, counterexample: in the resize flow the entry [abc] at the file
    selection does not end the flow: the next lines are read and the
    engine runs. *)
Lemma resize_goes_on_after_nonnumeric :
  ~ aborts_on_first_line (resize_video (studio true))
      (start [Line "abc"; Line "1"; Line "2"]).
Proof.
  intros (_ & H & _). vm_compute in H. discriminate H.
Qed.

(** C4, as amended: in the crop flow (file selection, custom width,
    custom height) and in the split flow (custom duration) an entry that
    is not a number raises [ValueError] inside the flow: the flow prints
    its "valid number" line and returns normally, the rest of the input
    is left for the menu, only reads have been performed and no path has
    been created.  At the file selection of the resize and split flows,
    an integer prompt, such an entry is reported and the prompt is asked
    again. *)
Theorem nonnumeric_input_rejected :
  forall E w,
    (forall bad rest,
        List.filter is_video_file (env_listdir E (now w)) <> [] ->
        stdin w = Line bad :: rest ->
        PyStr.int_of_str (PyStr.strip bad) = None ->
        rejected_number w rest (crop_video E w)) /\
    (forall sel n input info opt bad rest,
        stdin w = Line sel :: Line opt :: Line bad :: rest ->
        PyStr.int_of_str (PyStr.strip sel) = Some n ->
        chosen E w n input info ->
        PyStr.strip opt = "6" ->
        PyStr.int_of_str (PyStr.strip bad) = None ->
        rejected_number w rest (crop_video E w)) /\
    (forall sel n input info opt typed a bad rest,
        stdin w = Line sel :: Line opt :: Line typed :: Line bad :: rest ->
        PyStr.int_of_str (PyStr.strip sel) = Some n ->
        chosen E w n input info ->
        PyStr.strip opt = "6" ->
        PyStr.int_of_str (PyStr.strip typed) = Some a ->
        PyStr.int_of_str (PyStr.strip bad) = None ->
        rejected_number w rest (crop_video E w)) /\
    (forall sel n input info opt bad rest,
        stdin w = Line sel :: Line opt :: Line bad :: rest ->
        PyStr.int_of_str (PyStr.strip sel) = Some n ->
        mem (PyStr.strip sel)
            (choices_upto (List.length
               (List.filter is_video_file (env_listdir E (now w))))) = true ->
        chosen E w n input info ->
        PyStr.strip opt = "5" ->
        py_float E (PyStr.strip bad) = None ->
        rejected_number w rest (split_video E w)) /\
    (forall files bad,
        PyStr.int_of_str (PyStr.strip bad) = None ->
        reprompts (resize_body E files) bad /\ reprompts (split_body E files) bad).
Proof.
  intros E w.
  set (files := List.filter is_video_file (env_listdir E (now w))).
  split; [|split; [|split; [|split]]].
  - intros bad rest Hne Hin Hbad.
    destruct (crop_video_start E w Hne) as (msgs & ->). fold files.
    match goal with |- context [try_except (crop_body E files) flow_handler ?w1] =>
      rewrite (handler_value_error _ _ _
                 (crop_body_bad_selection E files w1 bad rest Hin Hbad))
    end.
    apply (rejected_number_intro w rest _ (IoListdir "." :: map IoGetsize files));
      [reflexivity | reflexivity | apply listing_reads | reflexivity].
  - intros sel n input info opt bad rest Hin Hn Hch Hopt Hbad.
    destruct (crop_video_start E w (chosen_nonempty _ _ _ _ _ Hch)) as (msgs & ->).
    fold files. destruct Hch as (Hrange & Hnth & Hprobe). fold files in Hrange, Hnth, Hprobe.
    match goal with |- context [try_except (crop_body E files) flow_handler ?w1] =>
      destruct (crop_body_to_menu E files w1 sel (Line opt :: Line bad :: rest)
                  n input info Hin Hn Hrange Hnth) as (msgs1 & Hbody);
        [rewrite now_after_listing; exact Hprobe|];
      assert (Hraise : exists w2,
                 crop_body E files w1 = (Raise ValueError, w2) /\ stdin w2 = rest /\
                 io w2 = (io w ++ (IoListdir "." :: map IoGetsize files)
                               ++ [IoProbe input])%list /\
                 paths w2 = paths w)
    end.
    { eexists. split.
      - rewrite Hbody. unfold bind, prompt_choices.
        erewrite ask_valid;
          [| cbn [stdin]; reflexivity | cbv beta zeta; rewrite Hopt; reflexivity].
        erewrite crop_with_bad_width; [reflexivity | cbn [stdin]; reflexivity | exact Hbad].
      - cbn [stdin io paths]. rewrite <- app_assoc. repeat split; reflexivity. }
    destruct Hraise as (w2 & Hraise & Hs & Hio & Hp).
    rewrite (handler_value_error _ _ _ Hraise).
    exact (rejected_number_intro w rest w2 _ Hs Hio (listing_probe_reads files input) Hp).
  - intros sel n input info opt typed a bad rest Hin Hn Hch Hopt Ha Hbad.
    destruct (crop_video_start E w (chosen_nonempty _ _ _ _ _ Hch)) as (msgs & ->).
    fold files. destruct Hch as (Hrange & Hnth & Hprobe). fold files in Hrange, Hnth, Hprobe.
    match goal with |- context [try_except (crop_body E files) flow_handler ?w1] =>
      destruct (crop_body_to_menu E files w1 sel
                  (Line opt :: Line typed :: Line bad :: rest)
                  n input info Hin Hn Hrange Hnth) as (msgs1 & Hbody);
        [rewrite now_after_listing; exact Hprobe|];
      assert (Hraise : exists w2,
                 crop_body E files w1 = (Raise ValueError, w2) /\ stdin w2 = rest /\
                 io w2 = (io w ++ (IoListdir "." :: map IoGetsize files)
                               ++ [IoProbe input])%list /\
                 paths w2 = paths w)
    end.
    { eexists. split.
      - rewrite Hbody. unfold bind, prompt_choices.
        erewrite ask_valid;
          [| cbn [stdin]; reflexivity | cbv beta zeta; rewrite Hopt; reflexivity].
        erewrite crop_with_bad_height;
          [reflexivity | cbn [stdin]; reflexivity | exact Ha | exact Hbad].
      - cbn [stdin io paths]. rewrite <- app_assoc. repeat split; reflexivity. }
    destruct Hraise as (w2 & Hraise & Hs & Hio & Hp).
    rewrite (handler_value_error _ _ _ Hraise).
    exact (rejected_number_intro w rest w2 _ Hs Hio (listing_probe_reads files input) Hp).
  - intros sel n input info opt bad rest Hin Hn Hmem Hch Hopt Hbad.
    destruct (split_video_start E w (chosen_nonempty _ _ _ _ _ Hch)) as (msgs & ->).
    fold files. fold files in Hmem.
    destruct Hch as (Hrange & Hnth & Hprobe). fold files in Hrange, Hnth, Hprobe.
    match goal with |- context [try_except (split_body E files) flow_handler ?w1] =>
      destruct (split_body_to_menu E files w1 sel (Line opt :: Line bad :: rest)
                  n input info Hin Hn Hmem ltac:(lia) Hnth) as (msgs1 & Hbody);
        [rewrite now_after_listing; exact Hprobe|];
      assert (Hraise : exists w2,
                 split_body E files w1 = (Raise ValueError, w2) /\ stdin w2 = rest /\
                 io w2 = (io w ++ (IoListdir "." :: map IoGetsize files)
                               ++ [IoProbe input])%list /\
                 paths w2 = paths w)
    end.
    { eexists. split.
      - rewrite Hbody. unfold bind, prompt_choices.
        erewrite ask_valid;
          [| cbn [stdin]; reflexivity | cbv beta zeta; rewrite Hopt; reflexivity].
        erewrite split_with_bad_duration;
          [reflexivity | cbn [stdin]; reflexivity | exact Hbad].
      - cbn [stdin io paths]. rewrite <- app_assoc. repeat split; reflexivity. }
    destruct Hraise as (w2 & Hraise & Hs & Hio & Hp).
    rewrite (handler_value_error _ _ _ Hraise).
    exact (rejected_number_intro w rest w2 _ Hs Hio (listing_probe_reads files input) Hp).
  - intros fs bad Hbad. split.
    + apply resize_body_reprompts. left. exact Hbad.
    + apply split_body_reprompts. left. exact Hbad.
Qed.

Lemma nonnumeric_input_rejected_witness :
  rejected_number (start [Line "abc"; Line "1"]) [Line "1"]
                  (crop_video (studio true) (start [Line "abc"; Line "1"])) /\
  rejected_number (start [Line "1"; Line "6"; Line "wide"; Line "4"]) [Line "4"]
                  (crop_video (studio true)
                              (start [Line "1"; Line "6"; Line "wide"; Line "4"])) /\
  rejected_number (start [Line "1"; Line "6"; Line "640"; Line "tall"]) []
                  (crop_video (studio true)
                              (start [Line "1"; Line "6"; Line "640"; Line "tall"])) /\
  rejected_number (start [Line "1"; Line "5"; Line "sixty"]) []
                  (split_video (studio true) (start [Line "1"; Line "5"; Line "sixty"])) /\
  reprompts (resize_body (studio true) ["a.mp4"; "c.MOV"]) "abc" /\
  reprompts (split_body (studio true) ["a.mp4"; "c.MOV"]) "abc".
Proof.
  assert (Hch : forall keys, chosen (studio true) (start keys) 1 "a.mp4" hd_source).
  { intros keys. unfold chosen. simpl. repeat split; lia. }
  split.
  { apply (proj1 (nonnumeric_input_rejected (studio true) (start [Line "abc"; Line "1"]))
             "abc" [Line "1"]).
    - discriminate.
    - reflexivity.
    - reflexivity. }
  split.
  { apply (proj1 (proj2 (nonnumeric_input_rejected (studio true)
                           (start [Line "1"; Line "6"; Line "wide"; Line "4"])))
             "1" 1 "a.mp4" hd_source "6" "wide" [Line "4"]);
      first [apply Hch | reflexivity]. }
  split.
  { apply (proj1 (proj2 (proj2 (nonnumeric_input_rejected (studio true)
                           (start [Line "1"; Line "6"; Line "640"; Line "tall"]))))
             "1" 1 "a.mp4" hd_source "6" "640" 640 "tall" []);
      first [apply Hch | reflexivity]. }
  split.
  { apply (proj1 (proj2 (proj2 (proj2 (nonnumeric_input_rejected (studio true)
                           (start [Line "1"; Line "5"; Line "sixty"])))))
             "1" 1 "a.mp4" hd_source "5" "sixty" []);
      first [apply Hch | reflexivity]. }
  apply (proj2 (proj2 (proj2 (proj2 (nonnumeric_input_rejected (studio true) (start []))))));
    reflexivity.
Defined.
